(** * WHPplus data preparation scripts: record converter and shard splitter

    Shallow embedding of
      - [src/data/WHPplus/process_ids_10000_10009.py] (module [Converter]),
      - [src/data/WHPplus/split_whp.py]               (module [Splitter]),
    over a small model of the Python values that [json.load] produces
    (module [Py]), followed by the properties of both scripts. *)

From Stdlib Require Import List String Ascii ZArith Lia Bool.
From Stdlib Require Import Permutation Sorted RelationClasses OrdersEx.
From Stdlib Require Import DecimalString DecimalZ SpecFloat.
From Stdlib Require DecimalPos DecimalFacts.
Import ListNotations.

Local Open Scope string_scope.
Local Open Scope list_scope.
Local Open Scope Z_scope.

Set Warnings "-register-all".

(* ================================================================== *)
(** * Python values, exceptions and the builtins both scripts use *)
(* ================================================================== *)

Module Py.

(** What [json.load] returns: [None], [bool], [int], [float], [str], [list]
    and [dict].  A [dict] is kept as the list of its items in insertion
    order; its keys are strings (JSON object keys) and pairwise distinct.
    Strings are byte strings (UTF-8), whose lexicographic order agrees with
    the code-point order Python compares [str] by. *)
Inductive value : Type :=
| VNone
| VBool (b : bool)
| VInt (z : Z)
| VFloat (f : spec_float)
| VStr (s : string)
| VList (l : list value)
| VDict (d : list (string * value)).

(** Insertion-ordered dictionary with string keys. *)
Abbreviation dict A := (list (string * A)) (only parsing).

(** The exceptions that can leave the two scripts.  [IOError] stands for a
    failure of [open] or [json.load] on the input path. *)
Inductive exn : Type :=
| ValueError | AttributeError | TypeError | ZeroDivisionError
| IndexError | KeyError | IOError.

Inductive result (A : Type) : Type :=
| Ok (a : A)
| Raise (e : exn).
Arguments Ok {A} a.
Arguments Raise {A} e.

Definition bind {A B} (r : result A) (k : A -> result B) : result B :=
  match r with
  | Ok a => k a
  | Raise e => Raise e
  end.

(** [for x in l: s = f(s, x)], stopping at the first exception. *)
Fixpoint foldM {S A} (f : S -> A -> result S) (l : list A) (s : S) : result S :=
  match l with
  | [] => Ok s
  | x :: l' => bind (f s x) (foldM f l')
  end.

(** [[f(x) for x in l]], stopping at the first exception. *)
Fixpoint mapM {A B} (f : A -> result B) (l : list A) : result (list B) :=
  match l with
  | [] => Ok []
  | x :: l' => bind (f x) (fun y => bind (mapM f l') (fun ys => Ok (y :: ys)))
  end.

(** ** Effects: what a run does to the outside world, in order. *)
Inductive effect : Type :=
| MakeDirs (path : string)               (* os.makedirs(path, exist_ok=True) *)
| WriteJson (path : string) (v : value)  (* open(path, "w"); json.dump(v, f, ...) *)
| Print (line : string).                 (* print(line) *)

(** A run: the effects performed so far and how it ended.  An exception
    keeps the effects that happened before it.  An effect is recorded as
    performed: a failure of the file system or of the encoder inside
    [os.makedirs], [open] or [json.dump] is outside the model, so what is
    proved of a run holds of the runs in which these calls succeed. *)
Definition run (A : Type) : Type := (list effect * result A)%type.

Definition ret {A} (a : A) : run A := ([], Ok a).
Definition lift {A} (r : result A) : run A := ([], r).
Definition emit (e : effect) : run unit := ([e], Ok tt).

Definition rbind {A B} (m : run A) (k : A -> run B) : run B :=
  match m with
  | (l1, Ok a) => let '(l2, r) := k a in (l1 ++ l2, r)
  | (l1, Raise e) => (l1, Raise e)
  end.

(** [for x in l: body(x)] in a run. *)
Fixpoint forM_ {A} (body : A -> run unit) (l : list A) : run unit :=
  match l with
  | [] => ret tt
  | x :: l' => rbind (body x) (fun _ => forM_ body l')
  end.

(** The file system as the scripts read it: the outcome of
    [open(path); json.load(f)] for every path.  Both scripts read their
    input before they write anything, so reads see the initial state. *)
Definition env : Type := string -> result value.

(** ** Builtins *)

(** [isinstance(v, dict)], [isinstance(v, list)], [isinstance(v, str)]. *)
Definition isinstance_dict (v : value) : bool :=
  match v with VDict _ => true | _ => false end.
Definition isinstance_list (v : value) : bool :=
  match v with VList _ => true | _ => false end.
Definition isinstance_str (v : value) : bool :=
  match v with VStr _ => true | _ => false end.

Definition float_is_zero (f : spec_float) : bool :=
  match f with S754_zero _ => true | _ => false end.

(** Truth value of an object ([bool(v)]). *)
Definition truthy (v : value) : bool :=
  match v with
  | VNone => false
  | VBool b => b
  | VInt z => negb (z =? 0)
  | VFloat f => negb (float_is_zero f)
  | VStr s => negb (String.eqb s "")
  | VList l => match l with [] => false | _ => true end
  | VDict d => match d with [] => false | _ => true end
  end.

(** [a or b]. *)
Definition py_or (a b : value) : value := if truthy a then a else b.

(** Objects of type [list] and [dict] are unhashable. *)
Definition hashable (v : value) : bool :=
  match v with VList _ | VDict _ => false | _ => true end.

(** Lookup of a string key: the first (only) item with that key. *)
Fixpoint dict_lookup {A} (d : dict A) (k : string) : option A :=
  match d with
  | [] => None
  | (k', v) :: d' => if String.eqb k k' then Some v else dict_lookup d' k
  end.

Definition keys {A} (d : dict A) : list string := map fst d.

(** [k in d] for a string [k]. *)
Definition dict_mem {A} (d : dict A) (k : string) : bool :=
  match dict_lookup d k with Some _ => true | None => false end.

(** [d.get(k)] for a string [k]: [None] when the key is absent. *)
Definition dict_get (d : dict value) (k : string) : value :=
  match dict_lookup d k with Some v => v | None => VNone end.

(** [d.get(k, default)]. *)
Definition dict_get_default (d : dict value) (k : string) (dflt : value) : value :=
  match dict_lookup d k with Some v => v | None => dflt end.

(** [k in d] for an arbitrary object [k]: hashing [k] comes first and
    raises [TypeError] on a list or a dict; a hashable object that is not a
    string equals no JSON key. *)
Definition dict_contains (d : dict value) (k : value) : result bool :=
  match k with
  | VStr s => Ok (dict_mem d s)
  | VList _ | VDict _ => Raise TypeError
  | _ => Ok false
  end.

(** [d.get(k)] for an arbitrary object [k]. *)
Definition dict_get_obj (d : dict value) (k : value) : result value :=
  match k with
  | VStr s => Ok (dict_get d s)
  | VList _ | VDict _ => Raise TypeError
  | _ => Ok VNone
  end.

(** [d[k]]: [KeyError] when the key is absent. *)
Definition dict_index {A} (d : dict A) (k : string) : result A :=
  match dict_lookup d k with Some v => Ok v | None => Raise KeyError end.

(** [d[k] = v]: an existing key keeps its position, a new one goes last. *)
Fixpoint dict_set {A} (d : dict A) (k : string) (v : A) : dict A :=
  match d with
  | [] => [(k, v)]
  | (k', v') :: d' =>
      if String.eqb k k' then (k', v) :: d' else (k', v') :: dict_set d' k v
  end.

(** [x in s] for a set of strings. *)
Definition set_mem (s : list string) (x : string) : bool :=
  existsb (String.eqb x) s.
Arguments set_mem : simpl never.

(** [str(i)] for an [int]. *)
Definition str (z : Z) : string := NilZero.string_of_int (Z.to_int z).

(** [range(a, b)]. *)
Definition range (a b : Z) : list Z :=
  map (fun i => a + Z.of_nat i) (seq 0 (Z.to_nat (b - a))).

(** [enumerate(l, start)]. *)
Fixpoint enumerate {A} (start : Z) (l : list A) : list (Z * A) :=
  match l with
  | [] => []
  | x :: l' => (start, x) :: enumerate (start + 1) l'
  end.

(** [len(s)] for a string. *)
Definition len (s : string) : Z := Z.of_nat (String.length s).

(** Position addressed by [l[j]] in a list of length [n]: negative indices
    count from the end, anything outside raises [IndexError]. *)
Definition list_pos (n : nat) (j : Z) : result nat :=
  let j' := if j <? 0 then j + Z.of_nat n else j in
  if (0 <=? j') && (j' <? Z.of_nat n) then Ok (Z.to_nat j') else Raise IndexError.

(** In-place update of position [i]. *)
Fixpoint list_update {A} (l : list A) (i : nat) (f : A -> A) : list A :=
  match l, i with
  | [], _ => []
  | x :: l', O => f x :: l'
  | x :: l', S i' => x :: list_update l' i' f
  end.

(** [sorted(l)] on strings: a stable sort by [<=]; on the pairwise distinct
    keys of a dict every sort returns the same list. *)
Fixpoint insert_sorted (x : string) (l : list string) : list string :=
  match l with
  | [] => [x]
  | y :: l' => if String.leb x y then x :: l else y :: insert_sorted x l'
  end.

Definition sorted (l : list string) : list string :=
  fold_right insert_sorted [] l.

(** ["0" * k]. *)
Fixpoint zeros (k : nat) : string :=
  match k with O => "" | S k' => String "0" (zeros k') end.

(** [f"{i:0{width}d}"]: sign first, then zeros up to [width] characters. *)
Definition format_0d (width : Z) (i : Z) : string :=
  let sign := if i <? 0 then "-" else "" in
  let digits := str (Z.abs i) in
  (sign ++ zeros (Z.to_nat (width - len sign - len digits)) ++ digits)%string.

(** [os.path] as the scripts use it.  Its functions depend on the platform
    ([posixpath] or [ntpath]); the splitter takes them as parameters and
    [Posix] gives the POSIX ones. *)
Module Posix.

Definition is_sep (c : ascii) : bool := Ascii.eqb c "/".
Definition is_dot (c : ascii) : bool := Ascii.eqb c ".".

Fixpoint ends_with_sep (s : string) : bool :=
  match s with
  | EmptyString => false
  | String c EmptyString => is_sep c
  | String _ s' => ends_with_sep s'
  end.

(** [os.path.join(a, b)]. *)
Definition join (a b : string) : string :=
  match b with
  | String c _ =>
      if is_sep c then b
      else if String.eqb a "" || ends_with_sep a then (a ++ b)%string
      else (a ++ "/" ++ b)%string
  | EmptyString =>
      if String.eqb a "" || ends_with_sep a then a else (a ++ "/")%string
  end.

(** Split at the last separator: [(head including it, tail)]. *)
Fixpoint split_last_sep (s : string) : string * string :=
  match s with
  | EmptyString => ("", "")
  | String c s' =>
      let '(h, t) := split_last_sep s' in
      if is_sep c && String.eqb h ""
      then (String c "", t)
      else if String.eqb h "" then ("", String c t)
      else (String c h, t)
  end.

(** [os.path.basename(p)]. *)
Definition basename (p : string) : string := snd (split_last_sep p).

Fixpoint all_dots (s : string) : bool :=
  match s with
  | EmptyString => true
  | String c s' => is_dot c && all_dots s'
  end.

(** Split a file name at its last dot: [None] when it has none. *)
Fixpoint split_last_dot (s : string) : option (string * string) :=
  match s with
  | EmptyString => None
  | String c s' =>
      match split_last_dot s' with
      | Some (r, e) => Some (String c r, e)
      | None => if is_dot c then Some ("", s) else None
      end
  end.

(** [os.path.splitext(p)]: the extension starts at the last dot of the
    last component, unless only dots precede it there. *)
Definition splitext (p : string) : string * string :=
  let '(h, t) := split_last_sep p in
  match split_last_dot t with
  | Some (r, e) => if all_dots r then (p, "") else ((h ++ r)%string, e)
  | None => (p, "")
  end.

End Posix.

Notation "x <- e ;; k" := (bind e (fun x => k))
  (at level 61, e at next level, right associativity, only parsing).
Notation "x <~ e ;; k" := (rbind e (fun x => k))
  (at level 61, e at next level, right associativity, only parsing).

End Py.

(* ================================================================== *)
(** * Record converter: [process_ids_10000_10009.py] *)
(* ================================================================== *)

Module Converter.
Import Py.

(** [convert_record(rec)].  A [rec] that is not a dict has no [get]. *)
Definition convert_record (rec : value) : result value :=
  match rec with
  | VDict r =>
      let question := dict_get r "question" in
      let name := dict_get r "name" in
      let answer_letter := dict_get r "answer" in
      let choices := py_or (dict_get r "choices") (VDict []) in
      let fact :=
        match answer_letter, choices with
        | VStr a, VDict c => dict_get c a
        | _, _ => VNone
        end in
      Ok (VDict [("question", question); ("fact", fact); ("name", name)])
  | _ => Raise AttributeError
  end.

(** [{str(i) for i in range(10000, 10010)}]. *)
Definition selected_ids : list string := map str (range 10000 10010).

(** Body of [for k, v in data.items()], on the pair [(selected, others)]. *)
Definition process_item (acc : dict value * dict value) (kv : string * value)
  : result (dict value * dict value) :=
  let '(selected, others) := acc in
  let '(k, v) := kv in
  match v with
  | VList items =>
      converted <- mapM convert_record items ;;
      if set_mem selected_ids k
      then Ok (dict_set selected k (VList converted), others)
      else Ok (selected, dict_set others k (VList converted))
  | _ => Ok acc
  end.

(** [process(in_path, out_selected, out_others)]. *)
Definition process (fs : env) (in_path out_selected out_others : string) : run unit :=
  data <~ lift (fs in_path) ;;
  match data with
  | VDict d =>
      so <~ lift (foldM process_item d ([], [])) ;;
      _ <~ emit (WriteJson out_selected (VDict (fst so))) ;;
      emit (WriteJson out_others (VDict (snd so)))
  | _ => lift (Raise ValueError)
  end.

End Converter.

(* ================================================================== *)
(** * Shard splitter: [split_whp.py] *)
(* ================================================================== *)

Module Splitter.
Import Py.

(** The namespace [parse_args] returns. *)
Record args : Type := {
  input : string;
  num_shards : Z;
  outdir : option string;
  sort_ids : bool
}.

Definition load_json (fs : env) (path : string) : result value := fs path.

Definition ensure_outdir (outdir : string) : run unit := emit (MakeDirs outdir).

(** Body of [for it in items], on the list [out]. *)
Definition transform_item (out : list value) (it : value) : result (list value) :=
  match it with
  | VDict r =>
      let ans := dict_get r "answer" in
      let choices := dict_get_default r "choices" (VDict []) in
      match choices with
      | VDict c =>
          present <- dict_contains c ans ;;
          if negb present then Ok out
          else
            fact_text <- dict_get_obj c ans ;;
            match fact_text with
            | VNone => Ok out
            | _ => Ok (out ++ [VDict [("name", dict_get r "name");
                                      ("question", dict_get r "question");
                                      ("fact", fact_text)]])
            end
      | _ => Ok out
      end
  | _ => Raise AttributeError
  end.

Definition transform_items (items : list value) : result (list value) :=
  foldM transform_item items [].

(** Body of [for idx, pid in enumerate(all_ids)], on the list [buckets]. *)
Definition shard_step (n : Z) (buckets : list (list string)) (ip : Z * string)
  : result (list (list string)) :=
  let '(idx, pid) := ip in
  if n =? 0 then Raise ZeroDivisionError
  else
    i <- list_pos (List.length buckets) (idx mod n) ;;
    Ok (list_update buckets i (fun b => b ++ [pid])).

Definition shard_ids (all_ids : list string) (n : Z) : result (list (list string)) :=
  let buckets := repeat [] (Z.to_nat n) in
  foldM (shard_step n) (enumerate 0 all_ids) buckets.

(** The [if isinstance(items, list) ... elif ... else] of [main]. *)
Definition new_items_of (items : value) : result (list value) :=
  match items with
  | VList l => transform_items l
  | VDict _ => transform_items [items]
  | _ => Ok []
  end.

(** Body of [for pid in all_ids], on the dict [transformed]. *)
Definition transform_id (data : dict value) (transformed : dict (list value))
  (pid : string) : result (dict (list value)) :=
  let items := dict_get data pid in
  new_items <- new_items_of items ;;
  match new_items with
  | [] => Ok transformed
  | _ => Ok (dict_set transformed pid new_items)
  end.

(** [{pid: transformed[pid] for pid in bucket}]. *)
Definition shard_dict_of (transformed : dict (list value)) (bucket : list string)
  : result (dict (list value)) :=
  foldM (fun sd pid => v <- dict_index transformed pid ;; Ok (dict_set sd pid v))
        bucket [].

(** A dict of record lists as the JSON value [json.dump] receives. *)
Definition dump (d : dict (list value)) : value :=
  VDict (map (fun kv => (fst kv, VList (snd kv))) d).

(** [sum(len(v) for v in shard_dict.values())]. *)
Definition total_items (d : dict (list value)) : Z :=
  fold_left (fun s kv => s + Z.of_nat (List.length (snd kv))) d 0.

(** The line printed after a shard is written. *)
Definition summary_line (shard_path : string) (bucket : list string)
  (shard_dict : dict (list value)) : string :=
  ("Wrote " ++ shard_path ++ " (ids: " ++ str (Z.of_nat (List.length bucket))
   ++ " items total: " ++ str (total_items shard_dict) ++ ")")%string.

Section Main.

Variable os_path_join : string -> string -> string.
Variable os_path_basename : string -> string.
Variable os_path_splitext : string -> string * string.

Definition shard_path_of (outdir : string) (width i : Z) : string :=
  os_path_join outdir ("split_" ++ format_0d width i ++ ".json")%string.

(** Body of [for i, bucket in enumerate(buckets, start=1)]. *)
Definition write_shard (outdir : string) (width : Z)
  (transformed : dict (list value)) (ib : Z * list string) : run unit :=
  let '(i, bucket) := ib in
  shard_dict <~ lift (shard_dict_of transformed bucket) ;;
  let shard_path := shard_path_of outdir width i in
  _ <~ emit (WriteJson shard_path (dump shard_dict)) ;;
  emit (Print (summary_line shard_path bucket shard_dict)).

(** The output directory [main] chooses. *)
Definition choose_outdir (a : args) : string :=
  let default :=
    let stem := fst (os_path_splitext (os_path_basename (input a))) in
    (stem ++ "_splits_" ++ str (num_shards a))%string in
  match outdir a with
  | Some o => if String.eqb o "" then default else o
  | None => default
  end.

(** [main()], on the parsed arguments. *)
Definition main (a : args) (fs : env) : run unit :=
  data <~ lift (load_json fs (input a)) ;;
  match data with
  | VDict d =>
      let outdir := choose_outdir a in
      _ <~ ensure_outdir outdir ;;
      let all_ids := keys d in
      let all_ids := if sort_ids a then sorted all_ids else all_ids in
      transformed <~ lift (foldM (transform_id d) all_ids []) ;;
      let filtered_ids := filter (dict_mem transformed) all_ids in
      buckets <~ lift (shard_ids filtered_ids (num_shards a)) ;;
      let width := Z.max 2 (len (str (num_shards a))) in
      _ <~ forM_ (write_shard outdir width transformed) (enumerate 1 buckets) ;;
      emit (Print "Done.")
  | _ => lift (Raise ValueError)
  end.

End Main.

End Splitter.

(* ================================================================== *)
(** * Vocabulary of the properties, and sample inputs *)
(* ================================================================== *)

Module Props.
Import Py.

(** Keys of a dict are pairwise distinct: the invariant of a Python dict. *)
Definition distinct_keys {A} (d : dict A) : Prop := NoDup (keys d).

(** Every item of [l] is an object. *)
Definition all_objects (l : list value) : Prop :=
  Forall (fun it => isinstance_dict it = true) l.

(** Every item of every list-valued identifier is an object. *)
Definition records_are_objects (d : dict value) : Prop :=
  Forall (fun kv => match snd kv with
                    | VList items => all_objects items
                    | _ => True
                    end) d.

(** Number of records held under list-valued identifiers. *)
Definition record_count (d : dict value) : nat :=
  list_sum (map (fun kv => match snd kv with
                           | VList items => List.length items
                           | _ => O
                           end) d).

(** [convert_record] on an object, as a total function. *)
Definition converted (it : value) : value :=
  match Converter.convert_record it with Ok v => v | Raise _ => VNone end.

(** The identifiers of [d] that hold a list and are ([b = true]) or are not
    ([b = false]) among the selected ones, each with its converted records. *)
Definition routed (b : bool) (d : dict value) : dict value :=
  flat_map (fun kv => match snd kv with
                      | VList items =>
                          if Bool.eqb (set_mem Converter.selected_ids (fst kv)) b
                          then [(fst kv, VList (map converted items))]
                          else []
                      | _ => []
                      end) d.

(** [transform_item] does not raise on [it]: [it] is an object, and its
    [answer] is hashable if its [choices] is a dict. *)
Definition item_ok (it : value) : bool :=
  match it with
  | VDict r =>
      match dict_get_default r "choices" (VDict []) with
      | VDict _ => hashable (dict_get r "answer")
      | _ => true
      end
  | _ => false
  end.

(** [new_items_of] does not raise on the value of an identifier. *)
Definition value_ok (v : value) : bool :=
  match v with
  | VList l => forallb item_ok l
  | VDict _ => item_ok v
  | _ => true
  end.

(** No value of the dataset makes the splitter raise. *)
Definition splittable (d : dict value) : Prop :=
  Forall (fun kv => value_ok (snd kv) = true) d.

(** What [transform_item] appends for [it]: nothing or one record. *)
Definition emitted (it : value) : list value :=
  match Splitter.transform_item [] it with Ok l => l | Raise _ => [] end.

(** The transformed records of identifier [pid], as a total function. *)
Definition items_of (d : dict value) (pid : string) : list value :=
  match Splitter.new_items_of (dict_get d pid) with Ok l => l | Raise _ => [] end.

Definition nonempty {A} (l : list A) : bool :=
  match l with [] => false | _ => true end.

(** The identifiers of [ids] that keep at least one record. *)
Definition survivors (d : dict value) (ids : list string) : list string :=
  filter (fun pid => nonempty (items_of d pid)) ids.

(** The items of [l] at the positions [i] with [i mod n = b], counted from
    [start], in the order of [l]. *)
Definition every_nth_from {A} (start n b : Z) (l : list A) : list A :=
  map snd (filter (fun ip => fst ip mod n =? b) (enumerate start l)).

Definition every_nth {A} (n b : Z) (l : list A) : list A :=
  every_nth_from 0 n b l.

(** The order in which [main] goes through the identifiers. *)
Definition processing_order (a : Splitter.args) (d : dict value) : list string :=
  if Splitter.sort_ids a then sorted (keys d) else keys d.

(** The identifiers [main] shards: the survivors, in processing order. *)
Definition filtered_ids (a : Splitter.args) (d : dict value) : list string :=
  survivors d (processing_order a d).

(** The content of shard number [k] (from 1). *)
Definition shard (a : Splitter.args) (d : dict value) (k : Z) : dict (list value) :=
  map (fun pid => (pid, items_of d pid))
      (every_nth (Splitter.num_shards a) (k - 1) (filtered_ids a d)).

Section Expected.

Variable os_path_join : string -> string -> string.
Variable os_path_basename : string -> string.
Variable os_path_splitext : string -> string * string.

(** Width of the shard numbers in the file names. *)
Definition name_width (a : Splitter.args) : Z :=
  Z.max 2 (len (str (Splitter.num_shards a))).

(** Path of shard number [k]. *)
Definition shard_path (a : Splitter.args) (k : Z) : string :=
  Splitter.shard_path_of os_path_join
    (Splitter.choose_outdir os_path_basename os_path_splitext a) (name_width a) k.

(** What [main] does for shard number [k]. *)
Definition shard_effects (a : Splitter.args) (d : dict value) (k : Z) : list effect :=
  [WriteJson (shard_path a k) (Splitter.dump (shard a d k));
   Print (Splitter.summary_line (shard_path a k)
            (every_nth (Splitter.num_shards a) (k - 1) (filtered_ids a d))
            (shard a d k))].

(** Everything a normal run of [main] does. *)
Definition main_effects (a : Splitter.args) (d : dict value) : list effect :=
  MakeDirs (Splitter.choose_outdir os_path_basename os_path_splitext a)
  :: flat_map (shard_effects a d) (range 1 (Splitter.num_shards a + 1))
  ++ [Print "Done."].

End Expected.

(** The value of an identifier as a list of items: a list as it is, a
    single object as a one-element list, anything else as no item. *)
Definition normalize (v : value) : list value :=
  match v with
  | VList l => l
  | VDict _ => [v]
  | _ => []
  end.

(** Identifier [pid] of [d] keeps at least one record. *)
Definition survives (d : dict value) (pid : string) : Prop :=
  In pid (keys d) /\
  exists items,
    Splitter.transform_items (normalize (dict_get d pid)) = Ok items /\ items <> [].

(** The items of a JSON document that is an object. *)
Definition doc_items (v : value) : dict value :=
  match v with VDict d => d | _ => [] end.

(** The ten selected identifiers, written out. *)
Definition ten_ids : list string :=
  ["10000"; "10001"; "10002"; "10003"; "10004";
   "10005"; "10006"; "10007"; "10008"; "10009"].

(** The paths and documents written by a run, in order. *)
Definition writes (log : list effect) : list (string * value) :=
  flat_map (fun e => match e with WriteJson p v => [(p, v)] | _ => [] end) log.

(** The directories a run asked for, in order. *)
Definition mkdirs (log : list effect) : list string :=
  flat_map (fun e => match e with MakeDirs p => [p] | _ => [] end) log.

End Props.

Module Examples.
Import Py.

(** The dataset of the specification's two examples. *)
Definition dataset : dict value :=
  [("10000", VList [VDict [("question", VStr "Q1"); ("answer", VStr "A");
                            ("choices", VDict [("A", VStr "fact1"); ("B", VStr "fact2")])]]);
   ("20000", VList [VDict [("question", VStr "Q2"); ("answer", VStr "X");
                            ("choices", VDict [("A", VStr "fact3")])]])].

(** The same associations, loaded in the other order. *)
Definition dataset_swapped : dict value :=
  [("20000", VList [VDict [("question", VStr "Q2"); ("answer", VStr "X");
                            ("choices", VDict [("A", VStr "fact3")])]]);
   ("10000", VList [VDict [("question", VStr "Q1"); ("answer", VStr "A");
                            ("choices", VDict [("A", VStr "fact1"); ("B", VStr "fact2")])]])].

(** A dataset with an identifier that holds an empty list. *)
Definition dataset_empty_id : dict value :=
  [("10003", VList []);
   ("7", VList [VDict [("question", VStr "Q"); ("answer", VStr "B");
                        ("choices", VDict [("B", VStr "f")])]])].

(** A file system holding [v] at ["in.json"] and nothing else. *)
Definition fs_with (v : value) : env :=
  fun p => if String.eqb p "in.json" then Ok v else Raise IOError.

(** [split_whp.py -i in.json -n 2], without and with [--sort_ids]. *)
Definition split_args : Splitter.args :=
  {| Splitter.input := "in.json"; Splitter.num_shards := 2;
     Splitter.outdir := None; Splitter.sort_ids := false |}.

Definition sorted_args : Splitter.args :=
  {| Splitter.input := "in.json"; Splitter.num_shards := 2;
     Splitter.outdir := None; Splitter.sort_ids := true |}.

End Examples.

(* ================================================================== *)
(** * The converter as a script, and further vocabulary *)
(* ================================================================== *)

Module ConverterScript.
Import Py.

(** How the interpreter leaves the script: the end of the file is reached,
    [sys.exit(code)] is called, or an exception is not caught. *)
Inductive termination : Type :=
| Finished
| Exit (code : Z)
| Uncaught (e : exn).

Definition usage : string :=
  "Usage: python process_ids_10000_10009.py input.json selected.json others.json".

(** The [if __name__ == "__main__":] block, on [sys.argv]. *)
Definition script (argv : list string) (fs : env) : list effect * termination :=
  if negb (Z.of_nat (List.length argv) =? 4)
  then ([Print usage], Exit 1)
  else
    let '(log, r) :=
      Converter.process fs (nth 1 argv "") (nth 2 argv "") (nth 3 argv "") in
    (log, match r with Ok _ => Finished | Raise e => Uncaught e end).

End ConverterScript.

Module MoreProps.
Import Py Props.

(** Number of records [transform_items] keeps over the whole dataset. *)
Definition records_kept (d : dict value) : nat :=
  list_sum (map (fun kv => List.length (items_of d (fst kv))) d).

(** Number of records in the documents a run has written. *)
Definition records_written (log : list effect) : nat :=
  list_sum (map (fun w => record_count (doc_items (snd w))) (writes log)).

(** The summary line that fits a written document. *)
Definition summary_of (w : string * value) : string :=
  ("Wrote " ++ fst w ++ " (ids: " ++ str (Z.of_nat (List.length (doc_items (snd w))))
   ++ " items total: " ++ str (Z.of_nat (record_count (doc_items (snd w)))) ++ ")")%string.

(** The identifiers of [d] that hold a list and satisfy [keep], in the
    order of [d]. *)
Definition list_valued_ids (keep : string -> bool) (d : dict value) : list string :=
  map fst (filter (fun kv => isinstance_list (snd kv) && keep (fst kv)) d).

(** The number a string of decimal digits stands for, leading zeros
    allowed; [None] when the string has another character. *)
Definition decimal_value (s : string) : option Z :=
  option_map Z.of_uint (NilEmpty.uint_of_string s).

(** A record of the splitter's output: exactly [name], [question], [fact],
    taken from the object [r], with [fact] the text its [answer] selects. *)
Definition split_record_of (r : dict value) (rec : value) : Prop :=
  exists a c fact,
    dict_lookup r "answer" = Some (VStr a) /\
    dict_lookup r "choices" = Some (VDict c) /\
    dict_lookup c a = Some fact /\ fact <> VNone /\
    rec = VDict [("name", dict_get r "name");
                 ("question", dict_get r "question");
                 ("fact", fact)].

End MoreProps.

Module MoreExamples.
Import Py.


(** [split_whp.py -i in.json -n 100 -o o]. *)
Definition hundred_args : Splitter.args :=
  {| Splitter.input := "in.json"; Splitter.num_shards := 100;
     Splitter.outdir := Some "o"; Splitter.sort_ids := false |}.


Definition dataset_non_object : dict value :=
  [("7", VList [VInt 5])].

(** A record whose answer is a list. *)
Definition bad_record : value :=
  VDict [("answer", VList [VStr "A"]); ("choices", VDict [("A", VStr "x")])].

(** A record that the splitter keeps. *)
Definition good_record : dict value :=
  [("name", VStr "n"); ("question", VStr "Q"); ("answer", VStr "A");
   ("choices", VDict [("A", VStr "fact1"); ("B", VStr "fact2")])].

End MoreExamples.

(* ================================================================== *)
(** * Facts about the builtins *)
(* ================================================================== *)

Module PyFacts.
Import Py Props.

Lemma dict_lookup_some_in {A} (d : dict A) k v :
  dict_lookup d k = Some v -> In (k, v) d.
Proof.
  induction d as [|[k' v'] d IH]; simpl; [discriminate|].
  destruct (String.eqb_spec k k') as [->|Hne].
  - intros [= ->]. now left.
  - intros H. right. now apply IH.
Qed.

Lemma dict_lookup_none {A} (d : dict A) k :
  dict_lookup d k = None <-> ~ In k (keys d).
Proof.
  induction d as [|[k' v'] d IH]; simpl.
  - tauto.
  - destruct (String.eqb_spec k k') as [->|Hne].
    + split; [discriminate|]. intros H. exfalso. apply H. now left.
    + rewrite IH. split; intros H; [intros [E|E]; [congruence|tauto]|tauto].
Qed.

Lemma dict_lookup_in_keys {A} (d : dict A) k v :
  dict_lookup d k = Some v -> In k (keys d).
Proof.
  intros H. apply dict_lookup_some_in in H.
  unfold keys. change k with (fst (k, v)). now apply in_map.
Qed.

Lemma dict_lookup_of_in {A} (d : dict A) k v :
  distinct_keys d -> In (k, v) d -> dict_lookup d k = Some v.
Proof.
  unfold distinct_keys.
  induction d as [|[k' v'] d IH]; simpl; [tauto|].
  intros Hnd [E|Hin].
  - injection E as -> ->. now rewrite String.eqb_refl.
  - inversion Hnd as [|? ? Hnotin Hnd']; subst.
    destruct (String.eqb_spec k k') as [->|Hne].
    + exfalso. apply Hnotin. change k' with (fst (k', v)). now apply in_map.
    + now apply IH.
Qed.

Lemma dict_mem_true {A} (d : dict A) k :
  dict_mem d k = true <-> In k (keys d).
Proof.
  unfold dict_mem. destruct (dict_lookup d k) eqn:E.
  - split; [intros _; eapply dict_lookup_in_keys; eauto|reflexivity].
  - split; [discriminate|]. intros H. now apply dict_lookup_none in E.
Qed.

Lemma dict_set_fresh {A} (d : dict A) k v :
  ~ In k (keys d) -> dict_set d k v = d ++ [(k, v)].
Proof.
  induction d as [|[k' v'] d IH]; simpl; [reflexivity|].
  intros H. destruct (String.eqb_spec k k') as [->|Hne].
  - exfalso. apply H. now left.
  - rewrite IH; [reflexivity|tauto].
Qed.

Lemma dict_lookup_app {A} (d1 d2 : dict A) k :
  dict_lookup (d1 ++ d2) k =
  match dict_lookup d1 k with Some v => Some v | None => dict_lookup d2 k end.
Proof.
  induction d1 as [|[k' v'] d1 IH]; simpl; [reflexivity|].
  now destruct (String.eqb k k').
Qed.

Lemma keys_app {A} (d1 d2 : dict A) : keys (d1 ++ d2) = keys d1 ++ keys d2.
Proof. unfold keys. apply map_app. Qed.

Lemma set_mem_true s x : set_mem s x = true <-> In x s.
Proof.
  unfold set_mem. rewrite existsb_exists. split.
  - intros (y & Hy & E). apply String.eqb_eq in E. now subst.
  - intros H. exists x. split; [assumption|apply String.eqb_refl].
Qed.

Lemma foldM_app {S A} (f : S -> A -> result S) l1 l2 s :
  foldM f (l1 ++ l2) s = bind (foldM f l1 s) (foldM f l2).
Proof.
  revert s. induction l1 as [|x l1 IH]; intros s; simpl; [reflexivity|].
  destruct (f s x); simpl; [apply IH|reflexivity].
Qed.

End PyFacts.

(* ================================================================== *)
(** * The record converter *)
(* ================================================================== *)

Module ConverterFacts.
Import Py Props PyFacts Converter.

Lemma convert_record_object r :
  convert_record (VDict r) = Ok (converted (VDict r)).
Proof. reflexivity. Qed.

Lemma convert_record_ok it v :
  convert_record it = Ok v -> isinstance_dict it = true /\ v = converted it.
Proof.
  destruct it; try discriminate. intros H. split; [reflexivity|].
  unfold converted. now rewrite H.
Qed.

Lemma mapM_convert_ok items c :
  mapM convert_record items = Ok c -> all_objects items /\ c = map converted items.
Proof.
  revert c. induction items as [|it items IH]; simpl; intros c H.
  - injection H as <-. split; [constructor|reflexivity].
  - destruct (convert_record it) as [v|e] eqn:Hit; simpl in H; [|discriminate].
    destruct (mapM convert_record items) as [vs|e] eqn:Hits; simpl in H; [|discriminate].
    injection H as <-. apply convert_record_ok in Hit as [Hd ->].
    destruct (IH _ eq_refl) as [Hall ->].
    split; [now constructor|reflexivity].
Qed.

Lemma mapM_convert_total items :
  all_objects items -> mapM convert_record items = Ok (map converted items).
Proof.
  induction 1 as [|it items Hit _ IH]; simpl; [reflexivity|].
  destruct it; try discriminate. rewrite convert_record_object. simpl.
  now rewrite IH.
Qed.

Lemma keys_routed b d k :
  In k (keys (routed b d)) <->
  exists items, In (k, VList items) d /\ set_mem selected_ids k = b.
Proof.
  induction d as [|[k' v] d IH]; simpl.
  - split; [tauto|]. intros (? & [] & _).
  - unfold routed in *. simpl. rewrite keys_app, in_app_iff, IH. clear IH.
    split.
    + intros [H|(items & Hin & Hb)].
      * destruct v; try (now destruct H).
        destruct (Bool.eqb (set_mem selected_ids k') b) eqn:E; [|now destruct H].
        destruct H as [<-|[]]. apply Bool.eqb_prop in E. simpl.
        exists l. split; [now left|assumption].
      * exists items. split; [now right|assumption].
    + intros (items & [E|Hin] & Hb).
      * injection E as -> ->. left. simpl.
        rewrite Hb, Bool.eqb_reflx. now left.
      * right. exists items. now split.
Qed.

Lemma routed_distinct b d : distinct_keys d -> distinct_keys (routed b d).
Proof.
  unfold distinct_keys.
  induction d as [|[k v] d IH]; simpl; intros Hnd; [constructor|].
  inversion Hnd as [|? ? Hnotin Hnd']; subst.
  unfold routed in *. simpl. rewrite keys_app.
  destruct v; simpl; auto.
  destruct (Bool.eqb (set_mem selected_ids k) b); simpl; auto.
  constructor; [|auto].
  intros Hin. apply keys_routed in Hin as (items & Hin & _).
  apply Hnotin. change k with (fst (k, VList items)). now apply in_map.
Qed.

Lemma lookup_routed b d k v :
  distinct_keys d ->
  (dict_lookup (routed b d) k = Some v <->
   exists items, dict_lookup d k = Some (VList items) /\
                 set_mem selected_ids k = b /\ v = VList (map converted items)).
Proof.
  intros Hnd. split.
  - intros H. apply dict_lookup_some_in in H.
    unfold routed in H. apply in_flat_map in H as ([k' v'] & Hin & H).
    simpl in H. destruct v'; simpl in H; try tauto.
    destruct (Bool.eqb (set_mem selected_ids k') b) eqn:E; simpl in H; [|tauto].
    destruct H as [H|[]]. injection H as -> <-. apply Bool.eqb_prop in E.
    exists l. repeat split; [now apply dict_lookup_of_in|assumption].
  - intros (items & Hl & Hb & ->).
    apply dict_lookup_of_in; [now apply routed_distinct|].
    unfold routed. apply in_flat_map. exists (k, VList items).
    split; [now apply dict_lookup_some_in|].
    simpl. rewrite Hb, Bool.eqb_reflx. now left.
Qed.

Lemma record_count_app d1 d2 :
  record_count (d1 ++ d2) = (record_count d1 + record_count d2)%nat.
Proof. unfold record_count. now rewrite map_app, list_sum_app. Qed.

Lemma record_count_routed d :
  (record_count (routed true d) + record_count (routed false d))%nat = record_count d.
Proof.
  induction d as [|[k v] d IH]; [reflexivity|].
  unfold routed in *. simpl. rewrite !record_count_app.
  change (record_count ((k, v) :: d))
    with (match v with VList items => List.length items | _ => O end + record_count d)%nat.
  rewrite <- IH.
  destruct v; simpl; try lia.
  destruct (set_mem selected_ids k); unfold record_count; simpl;
    rewrite length_map; lia.
Qed.

(** The loop of [process], run from any pair of dicts whose keys the
    remaining identifiers do not meet. *)
Lemma process_items_total d : forall sel oth,
  distinct_keys d -> records_are_objects d ->
  (forall k, In k (keys d) -> ~ In k (keys sel) /\ ~ In k (keys oth)) ->
  foldM process_item d (sel, oth) = Ok (sel ++ routed true d, oth ++ routed false d).
Proof.
  unfold distinct_keys, records_are_objects.
  induction d as [|[k v] d IH]; intros sel oth Hnd Hobj Hfresh.
  - simpl. now rewrite !app_nil_r.
  - inversion Hnd as [|? ? Hnotin Hnd']; subst.
    inversion Hobj as [|? ? Hv Hobj']; subst. simpl in Hv.
    destruct (Hfresh k (or_introl eq_refl)) as [Hs Ho].
    assert (Hstep : forall sel' oth' : dict value,
      keys sel' = keys sel \/ keys sel' = keys sel ++ [k] ->
      keys oth' = keys oth \/ keys oth' = keys oth ++ [k] ->
      forall k0, In k0 (keys d) -> ~ In k0 (keys sel') /\ ~ In k0 (keys oth')).
    { intros sel' oth' Hs' Ho' k0 Hk0.
      destruct (Hfresh k0 (or_intror Hk0)) as [H1 H2].
      assert (k0 <> k) by (intros ->; contradiction).
      split; [destruct Hs' as [->| ->]|destruct Ho' as [->| ->]];
        rewrite ?in_app_iff; simpl; intuition congruence. }
    unfold routed. simpl. fold (routed true d). fold (routed false d).
    destruct v; try (simpl; apply IH; auto; fail).
    cbn [foldM process_item]. rewrite (mapM_convert_total _ Hv). cbn [bind snd fst].
    destruct (set_mem selected_ids k) eqn:Hsel; cbn [Bool.eqb]; cbn [bind].
    + rewrite dict_set_fresh by assumption.
      rewrite IH; auto.
      * now rewrite <- app_assoc.
      * apply Hstep; [right; rewrite keys_app; reflexivity|now left].
    + rewrite dict_set_fresh by assumption.
      rewrite IH; auto.
      * now rewrite <- app_assoc.
      * apply Hstep; [now left|right; rewrite keys_app; reflexivity].
Qed.

Lemma process_items_inv d : forall acc r,
  foldM process_item d acc = Ok r -> records_are_objects d.
Proof.
  unfold records_are_objects.
  induction d as [|[k v] d IH]; intros [sel oth] r H; [constructor|].
  cbn [foldM process_item] in H.
  destruct v; try (constructor; [exact I|eapply IH; exact H]).
  destruct (mapM convert_record l) as [c|e] eqn:Hc; cbn [bind] in H; [|discriminate].
  apply mapM_convert_ok in Hc as [Hall _].
  constructor; [exact Hall|].
  destruct (set_mem selected_ids k); cbn [bind] in H; eapply IH; exact H.
Qed.

(** A run of [process] on a dataset whose records are objects. *)
Lemma process_total fs inp s o d :
  fs inp = Ok (VDict d) -> distinct_keys d -> records_are_objects d ->
  process fs inp s o =
  ([WriteJson s (VDict (routed true d)); WriteJson o (VDict (routed false d))], Ok tt).
Proof.
  intros Hfs Hnd Hobj. unfold process, lift, rbind. rewrite Hfs.
  rewrite (process_items_total d [] []); auto.
Qed.

(** [process] ends normally only on such a dataset. *)
Lemma process_inv fs inp s o d log :
  fs inp = Ok (VDict d) -> process fs inp s o = (log, Ok tt) -> records_are_objects d.
Proof.
  intros Hfs. unfold process, lift, rbind. rewrite Hfs.
  destruct (foldM process_item d ([], [])) as [r|e] eqn:E; [|discriminate].
  intros _. eapply process_items_inv; eauto.
Qed.

End ConverterFacts.

(* ================================================================== *)
(** * The shard splitter *)
(* ================================================================== *)

Module SplitterFacts.
Import Py Props PyFacts Splitter.

(** ** [transform_items] *)

Lemma transform_item_ok out it :
  item_ok it = true -> transform_item out it = Ok (out ++ emitted it).
Proof.
  unfold emitted, item_ok. destruct it as [| | | | | |r]; try discriminate.
  cbn [transform_item].
  destruct (dict_get_default r "choices" (VDict [])) as [| | | | | |c];
    try (intros _; now rewrite app_nil_r).
  intros Hh.
  destruct (dict_get r "answer") as [| | | | | |] eqn:Ha; try discriminate;
    cbn [dict_contains dict_get_obj bind negb]; try now rewrite app_nil_r.
  destruct (dict_mem c s); cbn [negb bind]; [|now rewrite app_nil_r].
  destruct (dict_get c s); now rewrite ?app_nil_r.
Qed.

Lemma transform_item_raise out it :
  item_ok it = false -> exists e, transform_item out it = Raise e.
Proof.
  unfold item_ok. destruct it as [| | | | | |r]; try (eexists; reflexivity).
  cbn [transform_item].
  destruct (dict_get_default r "choices" (VDict [])) as [| | | | | |c];
    try discriminate.
  destruct (dict_get r "answer"); try discriminate; eexists; reflexivity.
Qed.

Lemma transform_loop_ok items : forall out,
  forallb item_ok items = true ->
  foldM transform_item items out = Ok (out ++ flat_map emitted items).
Proof.
  induction items as [|it items IH]; intros out H; simpl.
  - now rewrite app_nil_r.
  - simpl in H. apply andb_prop in H as [H1 H2].
    rewrite (transform_item_ok _ _ H1). cbn [bind].
    rewrite IH by assumption. now rewrite <- app_assoc.
Qed.

Lemma transform_loop_raise items : forall out,
  forallb item_ok items = false -> exists e, foldM transform_item items out = Raise e.
Proof.
  induction items as [|it items IH]; intros out H; simpl in *; [discriminate|].
  destruct (item_ok it) eqn:Hit.
  - rewrite (transform_item_ok _ _ Hit). cbn [bind]. now apply IH.
  - destruct (transform_item_raise out it Hit) as [e ->]. now exists e.
Qed.

Lemma transform_items_ok items :
  forallb item_ok items = true -> transform_items items = Ok (flat_map emitted items).
Proof. intros H. unfold transform_items. now rewrite transform_loop_ok. Qed.

Lemma transform_items_raise items :
  forallb item_ok items = false -> exists e, transform_items items = Raise e.
Proof. apply transform_loop_raise. Qed.

(** ** The loop of [main] that fills [transformed] *)

Lemma new_items_of_ok v :
  value_ok v = true -> exists l, new_items_of v = Ok l.
Proof.
  destruct v; cbn [value_ok new_items_of]; intros H; try (eexists; reflexivity).
  - rewrite transform_items_ok by assumption. eexists; reflexivity.
  - rewrite transform_items_ok; [eexists; reflexivity|].
    cbn [forallb]. now rewrite H.
Qed.

Lemma new_items_of_raise v :
  value_ok v = false -> exists e, new_items_of v = Raise e.
Proof.
  destruct v; cbn [value_ok new_items_of]; intros H; try discriminate.
  - now apply transform_items_raise.
  - apply transform_items_raise. cbn [forallb]. now rewrite H.
Qed.

Lemma items_of_ok d pid :
  value_ok (dict_get d pid) = true ->
  new_items_of (dict_get d pid) = Ok (items_of d pid).
Proof.
  intros H. unfold items_of.
  destruct (new_items_of_ok _ H) as [l ->]. reflexivity.
Qed.

Lemma transform_id_ok d tr pid :
  value_ok (dict_get d pid) = true ->
  transform_id d tr pid =
  Ok (if nonempty (items_of d pid) then dict_set tr pid (items_of d pid) else tr).
Proof.
  intros H. unfold transform_id. rewrite (items_of_ok _ _ H). cbn [bind].
  now destruct (items_of d pid).
Qed.

Lemma transform_id_raise d tr pid :
  value_ok (dict_get d pid) = false -> exists e, transform_id d tr pid = Raise e.
Proof.
  intros H. unfold transform_id.
  destruct (new_items_of_raise _ H) as [e ->]. now exists e.
Qed.

Lemma transform_ids_inv d ids : forall acc tr,
  foldM (transform_id d) ids acc = Ok tr ->
  Forall (fun pid => value_ok (dict_get d pid) = true) ids.
Proof.
  induction ids as [|pid ids IH]; intros acc tr H; [constructor|].
  cbn [foldM] in H.
  destruct (value_ok (dict_get d pid)) eqn:Hv.
  - constructor; [assumption|].
    rewrite (transform_id_ok _ _ _ Hv) in H. cbn [bind] in H. eapply IH; eauto.
  - destruct (transform_id_raise d acc pid Hv) as [e He].
    rewrite He in H. discriminate.
Qed.

Lemma transform_ids_total d ids : forall acc,
  NoDup ids ->
  Forall (fun pid => value_ok (dict_get d pid) = true) ids ->
  (forall pid, In pid ids -> ~ In pid (keys acc)) ->
  foldM (transform_id d) ids acc =
  Ok (acc ++ map (fun pid => (pid, items_of d pid)) (survivors d ids)).
Proof.
  induction ids as [|pid ids IH]; intros acc Hnd Hok Hfresh.
  - simpl. now rewrite app_nil_r.
  - inversion Hnd as [|? ? Hnotin Hnd']; subst.
    inversion Hok as [|? ? Hv Hok']; subst.
    cbn [foldM]. rewrite (transform_id_ok _ _ _ Hv). cbn [bind].
    unfold survivors. cbn [filter]. fold (survivors d ids).
    destruct (nonempty (items_of d pid)).
    + rewrite dict_set_fresh by (apply Hfresh; now left).
      rewrite IH; auto.
      * cbn [map]. now rewrite <- app_assoc.
      * intros pid' Hin. rewrite keys_app, in_app_iff. simpl.
        intros [H|[->|[]]]; [|contradiction].
        revert H. apply Hfresh. now right.
    + apply IH; auto. intros pid' Hin. apply Hfresh. now right.
Qed.

Lemma keys_transformed d ids :
  keys (map (fun pid => (pid, items_of d pid)) ids) = ids.
Proof. unfold keys. rewrite map_map. simpl. apply map_id. Qed.

Lemma survivors_in d ids pid :
  In pid (survivors d ids) <-> In pid ids /\ nonempty (items_of d pid) = true.
Proof. unfold survivors. apply filter_In. Qed.

Lemma survivors_nodup d ids : NoDup ids -> NoDup (survivors d ids).
Proof. apply NoDup_filter. Qed.

(** [filtered_ids] of [main] is the list of survivors. *)
Lemma filter_transformed d ids :
  filter (dict_mem (map (fun pid => (pid, items_of d pid)) (survivors d ids))) ids
  = survivors d ids.
Proof.
  unfold survivors at 2. apply filter_ext_in. intros pid Hin.
  destruct (nonempty (items_of d pid)) eqn:E.
  - apply dict_mem_true. rewrite keys_transformed. apply survivors_in. now split.
  - destruct (dict_mem _ pid) eqn:F; [|reflexivity].
    apply dict_mem_true in F. rewrite keys_transformed in F.
    apply survivors_in in F as [_ F]. congruence.
Qed.

Lemma lookup_transformed d ids pid :
  In pid ids ->
  dict_lookup (map (fun pid => (pid, items_of d pid)) ids) pid = Some (items_of d pid).
Proof.
  induction ids as [|x ids IH]; simpl; [tauto|].
  destruct (String.eqb_spec pid x) as [->|Hne]; [reflexivity|].
  intros [E|Hin]; [congruence|now apply IH].
Qed.

(** ** Round-robin: [shard_ids] *)

Lemma mod_hit start n b : 1 <= n -> start mod n = b ->
  (b - start) mod n = 0 /\ (b - (start + 1)) mod n = n - 1.
Proof.
  intros Hn <-. pose proof (Z.div_mod start n ltac:(lia)) as E.
  split; symmetry.
  - apply (Z.mod_unique _ _ (- (start / n))); lia.
  - apply (Z.mod_unique _ _ (- (start / n) - 1)); lia.
Qed.

Lemma mod_miss start n b : 1 <= n -> 0 <= b < n -> start mod n <> b ->
  1 <= (b - start) mod n /\ (b - (start + 1)) mod n = (b - start) mod n - 1.
Proof.
  intros Hn Hb Hne.
  pose proof (Z.div_mod (b - start) n ltac:(lia)) as E.
  pose proof (Z.mod_pos_bound (b - start) n ltac:(lia)) as B.
  assert (H1 : 1 <= (b - start) mod n).
  { destruct (Z.eq_dec ((b - start) mod n) 0) as [Z0|]; [|lia].
    exfalso. apply Hne. symmetry.
    apply (Z.mod_unique _ _ (- ((b - start) / n))); lia. }
  split; [assumption|]. symmetry.
  apply (Z.mod_unique _ _ ((b - start) / n)); lia.
Qed.

Lemma every_nth_from_cons {A} start n b (x : A) l :
  every_nth_from start n b (x :: l) =
  if start mod n =? b then x :: every_nth_from (start + 1) n b l
  else every_nth_from (start + 1) n b l.
Proof.
  unfold every_nth_from. cbn [enumerate filter fst].
  now destruct (start mod n =? b).
Qed.

(** Bucket [b] holds the items at positions [b], [b + n], [b + 2n], ...
    (shifted when counting starts at [start]), in this order. *)
Lemma every_nth_from_nth {A} n b (l : list A) :
  1 <= n -> 0 <= b < n ->
  forall start j,
    nth_error (every_nth_from start n b l) j =
    nth_error l (Z.to_nat ((b - start) mod n + Z.of_nat j * n)).
Proof.
  intros Hn Hb. induction l as [|x l IH]; intros start j.
  - unfold every_nth_from. simpl. now destruct j, (Z.to_nat _).
  - rewrite every_nth_from_cons.
    assert (Hj : 0 <= Z.of_nat j * n) by nia.
    destruct (Z.eqb_spec (start mod n) b) as [E|E].
    + destruct (mod_hit _ _ _ Hn E) as [H0 H1]. rewrite H0.
      destruct j as [|j].
      * reflexivity.
      * cbn [nth_error]. rewrite IH, H1.
        assert (0 <= Z.of_nat j * n) by nia.
        replace (Z.to_nat (0 + Z.of_nat (S j) * n))
          with (S (Z.to_nat (n - 1 + Z.of_nat j * n))) by lia.
        reflexivity.
    + destruct (mod_miss _ _ _ Hn Hb E) as [H0 H1].
      rewrite IH, H1.
      replace (Z.to_nat ((b - start) mod n + Z.of_nat j * n))
        with (S (Z.to_nat ((b - start) mod n - 1 + Z.of_nat j * n))) by lia.
      reflexivity.
Qed.

Lemma every_nth_nth {A} n b (l : list A) j :
  1 <= n -> 0 <= b < n ->
  nth_error (every_nth n b l) j = nth_error l (Z.to_nat (b + Z.of_nat j * n)).
Proof.
  intros Hn Hb. unfold every_nth. rewrite every_nth_from_nth by assumption.
  now rewrite Z.sub_0_r, Z.mod_small.
Qed.

(** The item at position [idx] is in bucket [idx mod n], at place [idx / n]. *)
Lemma every_nth_position {A} n (l : list A) idx :
  1 <= n ->
  nth_error (every_nth n (Z.of_nat idx mod n) l) (Z.to_nat (Z.of_nat idx / n))
  = nth_error l idx.
Proof.
  intros Hn.
  pose proof (Z.mod_pos_bound (Z.of_nat idx) n ltac:(lia)) as B.
  pose proof (Z.div_mod (Z.of_nat idx) n ltac:(lia)) as E.
  assert (0 <= Z.of_nat idx / n) by (apply Z.div_pos; lia).
  rewrite every_nth_nth by assumption. f_equal. rewrite Z2Nat.id by assumption.
  lia.
Qed.

Lemma every_nth_in {A} n b (l : list A) x :
  1 <= n -> 0 <= b < n ->
  (In x (every_nth n b l) <->
   exists i, nth_error l i = Some x /\ Z.of_nat i mod n = b).
Proof.
  intros Hn Hb. split.
  - intros Hin. apply In_nth_error in Hin as [j Hj].
    rewrite every_nth_nth in Hj by assumption.
    eexists. split; [exact Hj|].
    assert (0 <= Z.of_nat j * n) by nia.
    rewrite Z2Nat.id by lia. rewrite Z.mod_add by lia. now apply Z.mod_small.
  - intros (i & Hi & <-). rewrite <- every_nth_position with (n := n) in Hi by assumption.
    eapply nth_error_In; eauto.
Qed.

Lemma every_nth_nodup {A} n b (l : list A) :
  1 <= n -> 0 <= b < n -> NoDup l -> NoDup (every_nth n b l).
Proof.
  intros Hn Hb Hnd. apply NoDup_nth_error. intros i j Hi E.
  rewrite !every_nth_nth in E by assumption.
  apply nth_error_Some in Hi. rewrite every_nth_nth in Hi by assumption.
  apply nth_error_Some in Hi.
  rewrite NoDup_nth_error in Hnd. apply Hnd in E; [|assumption].
  assert (0 <= Z.of_nat i * n) by nia. assert (0 <= Z.of_nat j * n) by nia.
  apply Z2Nat.inj in E; nia.
Qed.

Lemma every_nth_incl {A} n b (l : list A) x :
  1 <= n -> 0 <= b < n -> In x (every_nth n b l) -> In x l.
Proof.
  intros Hn Hb H. apply every_nth_in in H as (i & Hi & _); try assumption.
  eapply nth_error_In; eauto.
Qed.

Lemma length_list_update {A} (l : list A) i f :
  List.length (list_update l i f) = List.length l.
Proof.
  revert i. induction l as [|x l IH]; intros [|i]; simpl; auto.
Qed.

Lemma nth_list_update_eq {A} (l : list A) i f d :
  (i < List.length l)%nat -> nth i (list_update l i f) d = f (nth i l d).
Proof.
  revert i. induction l as [|x l IH]; intros [|i]; simpl; try lia; auto.
  intros H. apply IH. lia.
Qed.

Lemma nth_list_update_ne {A} (l : list A) i j f d :
  j <> i -> nth j (list_update l i f) d = nth j l d.
Proof.
  revert i j. induction l as [|x l IH]; intros [|i] [|j]; simpl; auto; try congruence.
Qed.

Lemma list_pos_in_range n j :
  0 <= j < Z.of_nat n -> list_pos n j = Ok (Z.to_nat j).
Proof.
  intros H. unfold list_pos.
  destruct (Z.ltb_spec j 0); [lia|].
  destruct (Z.leb_spec 0 j); [|lia].
  destruct (Z.ltb_spec j (Z.of_nat n)); [reflexivity|lia].
Qed.

Lemma shard_loop n (l : list string) :
  1 <= n ->
  forall start bs,
    List.length bs = Z.to_nat n ->
    exists bs',
      foldM (shard_step n) (enumerate start l) bs = Ok bs' /\
      List.length bs' = Z.to_nat n /\
      forall b, (b < Z.to_nat n)%nat ->
        nth b bs' [] = nth b bs [] ++ every_nth_from start n (Z.of_nat b) l.
Proof.
  intros Hn. induction l as [|pid l IH]; intros start bs Hlen.
  - exists bs. split; [reflexivity|]. split; [assumption|].
    intros b _. unfold every_nth_from. simpl. now rewrite app_nil_r.
  - cbn [enumerate foldM shard_step].
    destruct (Z.eqb_spec n 0); [lia|].
    pose proof (Z.mod_pos_bound start n ltac:(lia)) as B.
    rewrite list_pos_in_range by lia. cbn [bind].
    destruct (IH (start + 1)
                 (list_update bs (Z.to_nat (start mod n)) (fun b => b ++ [pid])))
      as (bs' & Hrun & Hlen' & Hnth).
    { now rewrite length_list_update. }
    exists bs'. split; [assumption|]. split; [assumption|].
    intros b Hb. rewrite (Hnth b Hb), every_nth_from_cons.
    destruct (Z.eqb_spec (start mod n) (Z.of_nat b)) as [E|E].
    + replace (Z.to_nat (start mod n)) with b by lia.
      rewrite nth_list_update_eq by lia. now rewrite <- app_assoc.
    + rewrite nth_list_update_ne by lia. reflexivity.
Qed.

(** [shard_ids] never raises for [n >= 1]; bucket [b] is [every_nth n b]. *)
Lemma shard_ids_total (l : list string) n :
  1 <= n ->
  shard_ids l n = Ok (map (fun b => every_nth n (Z.of_nat b) l) (seq 0 (Z.to_nat n))).
Proof.
  intros Hn. unfold shard_ids.
  destruct (shard_loop n l Hn 0 (repeat [] (Z.to_nat n))) as (bs' & -> & Hlen & Hnth).
  { apply repeat_length. }
  f_equal. apply (nth_ext _ _ [] []).
  - now rewrite length_map, length_seq.
  - intros b Hb. rewrite Hlen in Hb. rewrite (Hnth b Hb).
    rewrite nth_repeat. cbn [app].
    rewrite (nth_indep _ [] (every_nth n (Z.of_nat 0) l))
      by now rewrite length_map, length_seq.
    rewrite (map_nth (fun b => every_nth n (Z.of_nat b) l)).
    now rewrite seq_nth.
Qed.

(** ** [sorted] *)

Lemma insert_sorted_perm x l : Permutation (x :: l) (insert_sorted x l).
Proof.
  induction l as [|y l IH]; simpl; [reflexivity|].
  destruct (String.leb x y); [reflexivity|].
  rewrite perm_swap. now apply perm_skip.
Qed.

Lemma sorted_perm l : Permutation l (sorted l).
Proof.
  induction l as [|x l IH]; simpl; [reflexivity|].
  rewrite <- insert_sorted_perm. now apply perm_skip.
Qed.

Lemma processing_order_perm a d : Permutation (keys d) (processing_order a d).
Proof.
  unfold processing_order. destruct (sort_ids a); [apply sorted_perm|reflexivity].
Qed.

Lemma processing_order_nodup a d : distinct_keys d -> NoDup (processing_order a d).
Proof. apply Permutation_NoDup, processing_order_perm. Qed.

Lemma processing_order_in a d k : In k (processing_order a d) <-> In k (keys d).
Proof.
  split; apply Permutation_in;
    [symmetry|]; apply processing_order_perm.
Qed.

Lemma filtered_ids_in a d pid :
  In pid (filtered_ids a d) <-> In pid (keys d) /\ nonempty (items_of d pid) = true.
Proof.
  unfold filtered_ids. now rewrite survivors_in, processing_order_in.
Qed.

Lemma filtered_ids_nodup a d : distinct_keys d -> NoDup (filtered_ids a d).
Proof. intros H. now apply survivors_nodup, processing_order_nodup. Qed.

Lemma string_compare_spec a b :
  CompareSpec (a = b) (String_as_OT.lt a b) (String_as_OT.lt b a) (String.compare a b).
Proof. exact (String_as_OT.compare_spec a b). Qed.

Lemma string_lt_irrefl a : ~ String_as_OT.lt a a.
Proof. apply (StrictOrder_Irreflexive a). Qed.

Lemma leb_trans a b c :
  String.leb a b = true -> String.leb b c = true -> String.leb a c = true.
Proof.
  unfold String.leb.
  destruct (string_compare_spec a b) as [->|Hab|Hab]; try discriminate; intros _; auto.
  destruct (string_compare_spec b c) as [->|Hbc|Hbc]; try discriminate; intros _.
  - destruct (string_compare_spec a c) as [|H|H]; auto.
    exfalso. apply (string_lt_irrefl a). etransitivity; eauto.
  - assert (Hac : String_as_OT.lt a c) by (etransitivity; eauto).
    destruct (string_compare_spec a c) as [|H|H]; auto.
    exfalso. apply (string_lt_irrefl a). etransitivity; eauto.
Qed.

Ltac order_cases x y :=
  let Exy := fresh "Exy" in
  let Eyx := fresh "Eyx" in
  destruct (String.leb x y) eqn:Exy, (String.leb y x) eqn:Eyx;
  [ rewrite (String.leb_antisym _ _ Exy Eyx) in *; try reflexivity
  | try reflexivity
  | try reflexivity
  | exfalso; destruct (String.leb_total x y); congruence ].

Lemma insert_sorted_comm x y l :
  insert_sorted x (insert_sorted y l) = insert_sorted y (insert_sorted x l).
Proof.
  induction l as [|z l IH].
  - cbn [insert_sorted]. order_cases x y.
  - cbn [insert_sorted].
    destruct (String.leb y z) eqn:Eyz, (String.leb x z) eqn:Exz;
      cbn [insert_sorted]; rewrite ?Eyz, ?Exz.
    + order_cases x y.
    + destruct (String.leb x y) eqn:Exy; [|reflexivity].
      rewrite (leb_trans _ _ _ Exy Eyz) in Exz. discriminate.
    + destruct (String.leb y x) eqn:Eyx; [|reflexivity].
      rewrite (leb_trans _ _ _ Eyx Exz) in Eyz. discriminate.
    + now rewrite IH.
Qed.

(** [sorted] depends on the items only, not on their order. *)
Lemma sorted_perm_eq l1 l2 : Permutation l1 l2 -> sorted l1 = sorted l2.
Proof.
  induction 1 as [|x l1 l2 _ IH|x y l|l1 l2 l3 _ IH1 _ IH2]; simpl.
  - reflexivity.
  - now rewrite IH.
  - apply insert_sorted_comm.
  - congruence.
Qed.

Lemma dict_lookup_perm {A} (d1 d2 : dict A) k :
  Permutation d1 d2 -> distinct_keys d1 -> dict_lookup d1 k = dict_lookup d2 k.
Proof.
  intros Hp Hnd.
  assert (Hnd2 : distinct_keys d2).
  { unfold distinct_keys, keys in *. eapply Permutation_NoDup; [|exact Hnd].
    now apply Permutation_map. }
  destruct (dict_lookup d1 k) as [v|] eqn:E.
  - symmetry. apply dict_lookup_of_in; [assumption|].
    eapply Permutation_in; [exact Hp|]. now apply dict_lookup_some_in.
  - symmetry. apply dict_lookup_none. apply dict_lookup_none in E.
    intros Hin. apply E. unfold keys in *.
    eapply Permutation_in; [|exact Hin]. apply Permutation_map. now symmetry.
Qed.

Lemma foldM_ext {S A} (f g : S -> A -> result S) l :
  (forall s x, f s x = g s x) -> forall s, foldM f l s = foldM g l s.
Proof.
  intros Hfg. induction l as [|x l IH]; intros s; simpl; [reflexivity|].
  rewrite Hfg. destruct (g s x); simpl; auto.
Qed.

(** ** File names *)

Lemma length_append s1 s2 :
  String.length (s1 ++ s2) = (String.length s1 + String.length s2)%nat.
Proof. induction s1; simpl; auto. Qed.

Lemma append_cancel_r s : forall x y, (x ++ s = y ++ s)%string -> x = y.
Proof.
  assert (Hlen : forall x y, String.length x = String.length y ->
                             (x ++ s = y ++ s)%string -> x = y).
  { induction x as [|c x IH]; intros [|c' y]; simpl; try discriminate; auto.
    intros [= Hl] [= -> E]. f_equal. now apply IH. }
  intros x y E. apply Hlen; [|assumption].
  apply (f_equal String.length) in E. rewrite !length_append in E. lia.
Qed.

(** Reading a zero-padded number back gives the number. *)
Lemma parse_padded m u :
  option_map Z.of_uint
    (NilEmpty.uint_of_string (zeros m ++ NilZero.string_of_uint u))
  = Some (Z.of_uint u).
Proof.
  induction m as [|m IH].
  - cbn [zeros String.append]. destruct u; try reflexivity;
      unfold NilZero.string_of_uint; now rewrite NilEmpty.usu.
  - cbn [zeros String.append NilEmpty.uint_of_string].
    destruct (NilEmpty.uint_of_string _) as [u'|]; [|discriminate].
    exact IH.
Qed.

Lemma format_0d_nonneg w k :
  0 <= k ->
  format_0d w k = (zeros (Z.to_nat (w - len (str k))) ++ str k)%string.
Proof.
  intros Hk. unfold format_0d.
  destruct (Z.ltb_spec k 0); [lia|].
  rewrite Z.abs_eq by assumption. cbn [String.append].
  unfold len at 1. cbn [String.length]. now rewrite Z.sub_0_r.
Qed.

Lemma parse_format_0d w k :
  0 <= k ->
  option_map Z.of_uint (NilEmpty.uint_of_string (format_0d w k)) = Some k.
Proof.
  intros Hk. rewrite format_0d_nonneg by assumption.
  unfold str. rewrite <- (DecimalZ.of_to k) at 3.
  destruct k as [|p|p]; try lia; apply parse_padded.
Qed.

Lemma format_0d_inj w k1 k2 :
  0 <= k1 -> 0 <= k2 -> format_0d w k1 = format_0d w k2 -> k1 = k2.
Proof.
  intros H1 H2 E. apply (f_equal (fun s => option_map Z.of_uint (NilEmpty.uint_of_string s))) in E.
  rewrite !parse_format_0d in E by assumption. congruence.
Qed.

Lemma range_in a b k : In k (range a b) <-> a <= k < b.
Proof.
  unfold range. rewrite in_map_iff. split.
  - intros (i & <- & Hi). apply in_seq in Hi. lia.
  - intros H. exists (Z.to_nat (k - a)). split; [lia|]. apply in_seq. lia.
Qed.

Lemma range_nodup a b : NoDup (range a b).
Proof.
  unfold range. apply Finite.Injective_map_NoDup; [|apply seq_NoDup].
  intros i j. lia.
Qed.

(** The [n] shard names are pairwise distinct. *)
Lemma shard_names_nodup w n :
  NoDup (map (fun k => ("split_" ++ format_0d w k ++ ".json")%string) (range 1 (n + 1))).
Proof.
  apply Finite.Injective_map_NoDup_in; [|apply range_nodup].
  intros k1 k2 H1 H2 E. apply range_in in H1, H2.
  cbn [String.append] in E. injection E as E.
  apply append_cancel_r in E. apply (format_0d_inj w); [lia|lia|exact E].
Qed.

(** ** Writing the shards *)

Lemma shard_dict_loop d ids bucket : forall acc,
  NoDup bucket -> incl bucket ids ->
  (forall pid, In pid bucket -> ~ In pid (keys acc)) ->
  foldM (fun sd pid =>
           v <- dict_index (map (fun pid => (pid, items_of d pid)) ids) pid ;;
           Ok (dict_set sd pid v)) bucket acc
  = Ok (acc ++ map (fun pid => (pid, items_of d pid)) bucket).
Proof.
  induction bucket as [|pid bucket IH]; intros acc Hnd Hincl Hfresh.
  - simpl. now rewrite app_nil_r.
  - inversion Hnd as [|? ? Hnotin Hnd']; subst.
    cbn [foldM]. unfold dict_index at 1.
    rewrite lookup_transformed by (apply Hincl; now left). cbn [bind].
    rewrite dict_set_fresh by (apply Hfresh; now left).
    rewrite IH; auto.
    + cbn [map]. now rewrite <- app_assoc.
    + intros x Hx. apply Hincl. now right.
    + intros x Hx. rewrite keys_app, in_app_iff. simpl.
      intros [H|[->|[]]]; [|contradiction].
      revert H. apply Hfresh. now right.
Qed.

Lemma shard_dict_of_total d ids bucket :
  NoDup bucket -> incl bucket ids ->
  shard_dict_of (map (fun pid => (pid, items_of d pid)) ids) bucket
  = Ok (map (fun pid => (pid, items_of d pid)) bucket).
Proof.
  intros Hnd Hincl. unfold shard_dict_of.
  rewrite shard_dict_loop; auto.
Qed.

Lemma enumerate_map_seq {A} (f : nat -> A) len : forall start s,
  enumerate start (map f (seq s len)) =
  map (fun i => (start + Z.of_nat (i - s), f i)) (seq s len).
Proof.
  induction len as [|len IH]; intros start s; [reflexivity|].
  cbn [seq map enumerate]. rewrite IH. f_equal.
  - f_equal. lia.
  - apply map_ext_in. intros i Hi. apply in_seq in Hi. f_equal. lia.
Qed.

Section MainFacts.

Variable os_path_join : string -> string -> string.
Variable os_path_basename : string -> string.
Variable os_path_splitext : string -> string * string.

Local Abbreviation main :=
  (Splitter.main os_path_join os_path_basename os_path_splitext).
Local Abbreviation main_effects :=
  (Props.main_effects os_path_join os_path_basename os_path_splitext).
Local Abbreviation shard_path :=
  (Props.shard_path os_path_join os_path_basename os_path_splitext).

Lemma write_shards_total outdir width d ids buckets : forall start,
  Forall (fun bucket => NoDup bucket /\ incl bucket ids) buckets ->
  forM_ (write_shard os_path_join outdir width
           (map (fun pid => (pid, items_of d pid)) ids))
        (enumerate start buckets)
  = (flat_map (fun ib =>
       let sd := map (fun pid => (pid, items_of d pid)) (snd ib) in
       let path := shard_path_of os_path_join outdir width (fst ib) in
       [WriteJson path (dump sd); Print (summary_line path (snd ib) sd)])
       (enumerate start buckets), Ok tt).
Proof.
  induction buckets as [|bucket buckets IH]; intros start Hall; [reflexivity|].
  inversion Hall as [|? ? [Hnd Hincl] Hall']; subst.
  cbn [enumerate forM_ write_shard].
  rewrite shard_dict_of_total by assumption.
  unfold rbind, lift, emit. rewrite IH by assumption. reflexivity.
Qed.

Lemma order_values_ok a d :
  distinct_keys d -> splittable d ->
  Forall (fun pid => value_ok (dict_get d pid) = true) (processing_order a d).
Proof.
  intros Hnd Hs. apply Forall_forall. intros pid Hin.
  apply processing_order_in in Hin.
  unfold keys in Hin. apply in_map_iff in Hin as ([k v] & <- & Hin).
  unfold splittable in Hs. rewrite Forall_forall in Hs.
  unfold dict_get. cbn [fst]. rewrite (dict_lookup_of_in _ _ _ Hnd Hin).
  exact (Hs _ Hin).
Qed.

Lemma order_values_ok_inv a d :
  distinct_keys d ->
  Forall (fun pid => value_ok (dict_get d pid) = true) (processing_order a d) ->
  splittable d.
Proof.
  intros Hnd Hall. apply Forall_forall. intros [k v] Hin.
  rewrite Forall_forall in Hall.
  assert (Hk : In k (processing_order a d)).
  { apply processing_order_in. change k with (fst (k, v)). now apply in_map. }
  specialize (Hall _ Hk). unfold dict_get in Hall.
  now rewrite (dict_lookup_of_in _ _ _ Hnd Hin) in Hall.
Qed.

Lemma buckets_ok n (l : list string) :
  1 <= n -> NoDup l ->
  Forall (fun bucket => NoDup bucket /\ incl bucket l)
         (map (fun b => every_nth n (Z.of_nat b) l) (seq 0 (Z.to_nat n))).
Proof.
  intros Hn Hnd. apply Forall_forall. intros bucket Hin.
  apply in_map_iff in Hin as (b & <- & Hb). apply in_seq in Hb.
  split.
  - apply every_nth_nodup; [lia|lia|assumption].
  - intros x. apply every_nth_incl; lia.
Qed.

(** A run of [main] on a dataset it can split, with at least one shard. *)
Lemma main_total a fs d :
  fs (input a) = Ok (VDict d) -> distinct_keys d -> 1 <= num_shards a ->
  splittable d ->
  main a fs = (main_effects a d, Ok tt).
Proof.
  intros Hfs Hnd Hn Hs. unfold main, Splitter.main, load_json.
  unfold lift at 1. unfold rbind at 1. rewrite Hfs.
  change (if sort_ids a then sorted (keys d) else keys d)
    with (processing_order a d).
  unfold ensure_outdir, emit at 1. unfold rbind at 1.
  rewrite (transform_ids_total d (processing_order a d) [])
    by (auto using processing_order_nodup, order_values_ok).
  cbn [app]. fold (filtered_ids a d).
  unfold lift at 1. unfold rbind at 1.
  assert (Hf : filter (dict_mem (map (fun pid => (pid, items_of d pid))
                                     (filtered_ids a d)))
                      (processing_order a d) = filtered_ids a d)
    by apply filter_transformed.
  rewrite Hf, shard_ids_total by assumption.
  unfold lift at 1. unfold rbind at 1.
  rewrite write_shards_total
    by (apply buckets_ok; [assumption|now apply filtered_ids_nodup]).
  unfold rbind, emit. cbn [app]. f_equal.
  unfold Props.main_effects. f_equal. f_equal.
  rewrite enumerate_map_seq. unfold range.
  replace (Z.to_nat (num_shards a + 1 - 1)) with (Z.to_nat (num_shards a)) by lia.
  rewrite !flat_map_concat_map, !map_map. f_equal.
  apply map_ext_in. intros i Hi.
  unfold shard_effects, shard_path, name_width, shard. cbn [fst snd].
  replace (1 + Z.of_nat (i - 0)) with (1 + Z.of_nat i) by lia.
  replace (1 + Z.of_nat i - 1) with (Z.of_nat i) by lia.
  reflexivity.
Qed.

(** [main] ends normally only on an object it can split. *)
Lemma main_inv a fs log :
  main a fs = (log, Ok tt) ->
  exists d, fs (input a) = Ok (VDict d) /\ (distinct_keys d -> splittable d).
Proof.
  unfold Splitter.main, load_json.
  unfold lift at 1. unfold rbind at 1.
  destruct (fs (input a)) as [[| | | | | |d]|e]; try discriminate.
  change (if sort_ids a then sorted (keys d) else keys d)
    with (processing_order a d).
  unfold ensure_outdir, emit at 1. unfold rbind at 1.
  destruct (foldM (transform_id d) (processing_order a d) []) as [tr|e] eqn:Htr.
  - intros _. exists d. split; [reflexivity|]. intros Hnd.
    apply (order_values_ok_inv a); [assumption|].
    eapply transform_ids_inv; eauto.
  - unfold lift at 1. unfold rbind at 1. discriminate.
Qed.

Lemma writes_app l1 l2 : writes (l1 ++ l2) = writes l1 ++ writes l2.
Proof. unfold writes. apply flat_map_app. Qed.

Lemma writes_main_effects a d :
  writes (main_effects a d) =
  map (fun k => (shard_path a k, dump (shard a d k))) (range 1 (num_shards a + 1)).
Proof.
  unfold Props.main_effects. change (writes (MakeDirs ?p :: ?l)) with (writes l).
  rewrite writes_app. cbn [writes flat_map app]. rewrite app_nil_r.
  induction (range 1 (num_shards a + 1)) as [|k ks IH]; [reflexivity|].
  cbn [flat_map map]. rewrite writes_app, IH. reflexivity.
Qed.

Lemma nth_writes_main_effects a d k :
  1 <= k <= num_shards a ->
  nth_error (writes (main_effects a d)) (Z.to_nat (k - 1))
  = Some (shard_path a k, dump (shard a d k)).
Proof.
  intros Hk. rewrite writes_main_effects. unfold range.
  rewrite map_map. rewrite nth_error_map, nth_error_seq.
  destruct (Nat.ltb_spec (Z.to_nat (k - 1)) (Z.to_nat (num_shards a + 1 - 1))); [|lia].
  cbn [option_map].
  replace (1 + Z.of_nat (0 + Z.to_nat (k - 1))) with k by lia. reflexivity.
Qed.

Lemma length_writes_main_effects a d :
  List.length (writes (main_effects a d)) = Z.to_nat (num_shards a).
Proof.
  rewrite writes_main_effects, length_map. unfold range.
  rewrite length_map, length_seq. f_equal. lia.
Qed.

Lemma nth_writes_main_effects_inv a d i p doc :
  nth_error (writes (main_effects a d)) i = Some (p, doc) ->
  0 <= Z.of_nat i < num_shards a /\
  p = shard_path a (Z.of_nat i + 1) /\ doc = dump (shard a d (Z.of_nat i + 1)).
Proof.
  intros Hi.
  assert (Hlt : (i < List.length (writes (main_effects a d)))%nat)
    by (apply nth_error_Some; congruence).
  rewrite length_writes_main_effects in Hlt.
  pose proof (nth_writes_main_effects a d (Z.of_nat i + 1) ltac:(lia)) as H.
  replace (Z.to_nat (Z.of_nat i + 1 - 1)) with i in H by lia.
  rewrite H in Hi. injection Hi as <- <-. split; [lia|split; reflexivity].
Qed.

End MainFacts.

Lemma new_items_of_normalize v :
  new_items_of v = transform_items (normalize v).
Proof. now destruct v. Qed.

Lemma keys_shard_doc a d k :
  keys (doc_items (dump (shard a d k))) =
  every_nth (num_shards a) (k - 1) (filtered_ids a d).
Proof.
  unfold dump, shard, keys. cbn [doc_items]. rewrite !map_map. cbn [fst].
  apply map_id.
Qed.

Lemma in_shard_doc a d k pid v :
  In (pid, v) (doc_items (dump (shard a d k))) ->
  v = VList (items_of d pid) /\
  In pid (every_nth (num_shards a) (k - 1) (filtered_ids a d)).
Proof.
  unfold dump, shard. cbn [doc_items]. rewrite map_map. cbn [fst snd].
  intros H. apply in_map_iff in H as (x & [= <- <-] & Hx). now split.
Qed.

Lemma survives_iff a d pid :
  distinct_keys d -> splittable d ->
  (In pid (filtered_ids a d) <-> survives d pid).
Proof.
  intros Hnd Hs. rewrite filtered_ids_in. unfold survives.
  rewrite <- new_items_of_normalize.
  split; intros [Hin H]; (split; [assumption|]).
  - assert (Hv : value_ok (dict_get d pid) = true).
    { pose proof (order_values_ok a d Hnd Hs) as Hall.
      rewrite Forall_forall in Hall. apply Hall. now apply processing_order_in. }
    exists (items_of d pid). split; [now apply items_of_ok|].
    now destruct (items_of d pid).
  - destruct H as (items & Hi & Hne). unfold items_of. rewrite Hi.
    now destruct items.
Qed.

(** What [transform_item] appends for an object: one record with the
    resolved text when [choices] is a dict that maps the string [answer] to
    a value other than [None], and nothing otherwise (where it does not
    raise). *)
Lemma emitted_spec r :
  (forall c a fact,
      dict_lookup r "choices" = Some (VDict c) ->
      dict_lookup r "answer" = Some (VStr a) ->
      dict_lookup c a = Some fact -> fact <> VNone ->
      emitted (VDict r) = [VDict [("name", dict_get r "name");
                                  ("question", dict_get r "question");
                                  ("fact", fact)]]) /\
  ((forall c a fact,
      ~ (dict_lookup r "choices" = Some (VDict c) /\
         dict_lookup r "answer" = Some (VStr a) /\
         dict_lookup c a = Some fact /\ fact <> VNone)) ->
   emitted (VDict r) = []).
Proof.
  unfold emitted. cbn [transform_item]. unfold dict_get_default, dict_get. split.
  - intros c a fact Hc Ha Hf Hne. rewrite Hc, Ha.
    cbn [dict_contains dict_get_obj bind]. unfold dict_mem, dict_get. rewrite Hf.
    cbn [negb bind]. now destruct fact.
  - intros Hno.
    destruct (dict_lookup r "choices") as [[| | | | | |c]|]; try reflexivity.
    + destruct (dict_lookup r "answer") as [[| | | |s| |]|]; try reflexivity.
      cbn [dict_contains dict_get_obj bind]. unfold dict_mem, dict_get.
      destruct (dict_lookup c s) as [fact|] eqn:Hf; [|reflexivity].
      cbn [negb bind].
      destruct fact; try reflexivity;
        exfalso; eapply (Hno c s); repeat split; eauto; discriminate.
    + destruct (dict_lookup r "answer") as [[| | | |s| |]|]; reflexivity.
Qed.

End SplitterFacts.

(* ================================================================== *)
(** * The two scripts on the specification's sample dataset *)
(* ================================================================== *)

Section Samples.
Import Py Examples.

Example converter_on_sample :
  Converter.process (fs_with (VDict dataset)) "in.json" "sel.json" "oth.json" =
  ([WriteJson "sel.json"
      (VDict [("10000", VList [VDict [("question", VStr "Q1");
                                       ("fact", VStr "fact1");
                                       ("name", VNone)]])]);
    WriteJson "oth.json"
      (VDict [("20000", VList [VDict [("question", VStr "Q2");
                                       ("fact", VNone);
                                       ("name", VNone)]])])],
   Ok tt).
Proof. reflexivity. Qed.

Example splitter_on_sample :
  Splitter.main Posix.join Posix.basename Posix.splitext split_args
    (fs_with (VDict dataset)) =
  ([MakeDirs "in_splits_2";
    WriteJson "in_splits_2/split_01.json"
      (VDict [("10000", VList [VDict [("name", VNone);
                                       ("question", VStr "Q1");
                                       ("fact", VStr "fact1")]])]);
    Print "Wrote in_splits_2/split_01.json (ids: 1 items total: 1)";
    WriteJson "in_splits_2/split_02.json" (VDict []);
    Print "Wrote in_splits_2/split_02.json (ids: 0 items total: 0)";
    Print "Done."],
   Ok tt).
Proof. reflexivity. Qed.

Example shard_ids_five_in_two :
  Splitter.shard_ids ["a"; "b"; "c"; "d"; "e"] 2 = Ok [["a"; "c"; "e"]; ["b"; "d"]].
Proof. reflexivity. Qed.

Example shard_ids_zero_shards :
  Splitter.shard_ids ["a"] 0 = Raise ZeroDivisionError.
Proof. reflexivity. Qed.

Example shard_ids_negative_shards :
  Splitter.shard_ids ["a"] (-2) = Raise IndexError.
Proof. reflexivity. Qed.

Example format_0d_samples :
  (format_0d 2 7, format_0d 3 12, format_0d 2 123) = ("07", "012", "123").
Proof. reflexivity. Qed.

Example sorted_is_lexicographic :
  sorted ["b"; "a"; "10"; "9"] = ["10"; "9"; "a"; "b"].
Proof. reflexivity. Qed.

End Samples.

(* ================================================================== *)
(** * Properties of the record converter *)
(* ================================================================== *)

Section ConverterClaims.
Import Py Props PyFacts Converter ConverterFacts.

Lemma selected_ids_ten : selected_ids = ten_ids.
Proof. reflexivity. Qed.

(** C1. [convert_record] on a record returns exactly the fields
    [question], [fact], [name], in this order.  [question] and [name] are
    the record's own values, [None] when the record has no such field.
    [fact] is [choices[answer]] when [answer] is a string, [choices] is a
    dict and [answer] is one of its keys; in every other case it is
    [None]. *)
Theorem C1_convert_record_fields (r : dict value) :
  exists question fact name,
    convert_record (VDict r) =
      Ok (VDict [("question", question); ("fact", fact); ("name", name)]) /\
    question = match dict_lookup r "question" with Some q => q | None => VNone end /\
    name = match dict_lookup r "name" with Some n => n | None => VNone end /\
    (forall a c v,
        dict_lookup r "answer" = Some (VStr a) ->
        dict_lookup r "choices" = Some (VDict c) ->
        dict_lookup c a = Some v -> fact = v) /\
    ((forall a c v,
        ~ (dict_lookup r "answer" = Some (VStr a) /\
           dict_lookup r "choices" = Some (VDict c) /\
           dict_lookup c a = Some v)) -> fact = VNone).
Proof.
  eexists _, _, _. split; [reflexivity|].
  split; [reflexivity|]. split; [reflexivity|].
  unfold dict_get. split.
  - intros a c v Ha Hc Hv. rewrite Ha, Hc.
    destruct c as [|kv c]; [discriminate|].
    unfold py_or. cbn [truthy]. now rewrite Hv.
  - intros Hno.
    destruct (dict_lookup r "answer") as [[]|]; try reflexivity;
      try (now destruct (py_or _ _)).
    destruct (dict_lookup r "choices") as [ch|]; [|reflexivity].
    unfold py_or. destruct (truthy ch) eqn:Ht; [|reflexivity].
    destruct ch as [| | | | |l|c]; try reflexivity.
    destruct (dict_lookup c s) as [v|] eqn:Hv; [|reflexivity].
    exfalso. apply (Hno s c v). auto.
Qed.

(** C3. On a dataset (an object with pairwise distinct identifiers) a run
    of [process] that ends normally has written two documents, "selected"
    and then "others"; together they hold as many records as the input
    holds under list-valued identifiers, and an identifier whose value is
    not a list is in neither. *)
Theorem C3_converter_record_count fs inp s o (d : dict value) log :
  fs inp = Ok (VDict d) -> distinct_keys d ->
  process fs inp s o = (log, Ok tt) ->
  exists sel oth,
    log = [WriteJson s (VDict sel); WriteJson o (VDict oth)] /\
    (record_count sel + record_count oth)%nat = record_count d /\
    (forall k v, dict_lookup d k = Some v -> isinstance_list v = false ->
                 ~ In k (keys sel) /\ ~ In k (keys oth)).
Proof.
  intros Hfs Hnd Hrun.
  pose proof (process_inv _ _ _ _ _ _ Hfs Hrun) as Hobj.
  rewrite (process_total _ _ s o _ Hfs Hnd Hobj) in Hrun.
  injection Hrun as <-.
  exists (routed true d), (routed false d).
  split; [reflexivity|]. split; [apply record_count_routed|].
  intros k v Hl Hv.
  split; intros Hin; apply keys_routed in Hin as (items & Hin & _);
    apply (dict_lookup_of_in _ _ _ Hnd) in Hin; rewrite Hin in Hl;
    injection Hl as <-; discriminate.
Qed.

Lemma C3_converter_record_count_witness :
  Examples.fs_with (VDict Examples.dataset) "in.json" = Ok (VDict Examples.dataset) /\
  distinct_keys Examples.dataset /\
  exists sel oth,
    process (Examples.fs_with (VDict Examples.dataset)) "in.json" "sel.json" "oth.json" =
      ([WriteJson "sel.json" (VDict sel); WriteJson "oth.json" (VDict oth)], Ok tt) /\
    (record_count sel + record_count oth)%nat = 2%nat.
Proof.
  assert (H1 : Examples.fs_with (VDict Examples.dataset) "in.json"
               = Ok (VDict Examples.dataset)) by reflexivity.
  assert (H2 : distinct_keys Examples.dataset)
    by (unfold distinct_keys; simpl; repeat constructor; simpl; intuition discriminate).
  split; [exact H1|]. split; [exact H2|].
  destruct (C3_converter_record_count
              (Examples.fs_with (VDict Examples.dataset)) "in.json" "sel.json" "oth.json"
              Examples.dataset _ H1 H2 eq_refl) as (sel & oth & Hlog & Hcount & _).
  exists sel, oth. split; [now rewrite <- Hlog|exact Hcount].
Defined.

(** C4. In a run of [process] that ends normally, a list-valued
    identifier among "10000" .. "10009" is in "selected" with its converted
    records and not in "others"; any other list-valued identifier is in
    "others" with its converted records and not in "selected"; an
    identifier whose value is not a list is in neither, and the loop passes
    over it without raising. *)
Theorem C4_converter_routing fs inp s o (d : dict value) log :
  fs inp = Ok (VDict d) -> distinct_keys d ->
  process fs inp s o = (log, Ok tt) ->
  (exists sel oth,
     log = [WriteJson s (VDict sel); WriteJson o (VDict oth)] /\
     (forall k items, dict_lookup d k = Some (VList items) -> In k ten_ids ->
        dict_lookup sel k = Some (VList (map converted items)) /\
        ~ In k (keys oth)) /\
     (forall k items, dict_lookup d k = Some (VList items) -> ~ In k ten_ids ->
        dict_lookup oth k = Some (VList (map converted items)) /\
        ~ In k (keys sel)) /\
     (forall k, In k (keys sel) -> In k ten_ids) /\
     (forall k v, dict_lookup d k = Some v -> isinstance_list v = false ->
        ~ In k (keys sel) /\ ~ In k (keys oth))) /\
  (forall acc k v, isinstance_list v = false -> process_item acc (k, v) = Ok acc).
Proof.
  intros Hfs Hnd Hrun. split.
  - pose proof (process_inv _ _ _ _ _ _ Hfs Hrun) as Hobj.
    rewrite (process_total _ _ s o _ Hfs Hnd Hobj) in Hrun.
    injection Hrun as <-.
    exists (routed true d), (routed false d).
    split; [reflexivity|]. rewrite <- selected_ids_ten.
    split; [|split; [|split]].
    + intros k items Hl Hin. split.
      * apply lookup_routed; [assumption|]. exists items.
        repeat split; [assumption|]. now apply set_mem_true.
      * intros Hk. apply keys_routed in Hk as (items' & _ & Hb).
        apply set_mem_true in Hin. congruence.
    + intros k items Hl Hnin. split.
      * apply lookup_routed; [assumption|]. exists items.
        repeat split; [assumption|].
        destruct (set_mem selected_ids k) eqn:E; [|reflexivity].
        apply set_mem_true in E. contradiction.
      * intros Hk. apply keys_routed in Hk as (items' & _ & Hb).
        apply set_mem_true in Hb. contradiction.
    + intros k Hin. apply keys_routed in Hin as (items' & _ & Hb).
      now apply set_mem_true.
    + intros k v Hl Hv.
      split; intros Hin; apply keys_routed in Hin as (items & Hin & _);
        apply (dict_lookup_of_in _ _ _ Hnd) in Hin; rewrite Hin in Hl;
        injection Hl as <-; discriminate.
  - intros [sel oth] k v Hv. destruct v; try discriminate; reflexivity.
Qed.

End ConverterClaims.

(* ================================================================== *)
(** * Decimal digits of [str] *)
(* ================================================================== *)

Module DigitsFacts.
Import Py MoreProps PyFacts SplitterFacts.

Lemma of_uint_acc_bounds d : forall acc,
  Z.pos acc * 10 ^ Z.of_nat (Decimal.nb_digits d) <= Z.pos (Pos.of_uint_acc d acc)
  < (Z.pos acc + 1) * 10 ^ Z.of_nat (Decimal.nb_digits d).
Proof.
  induction d; intros acc; cbn [Decimal.nb_digits Pos.of_uint_acc];
    try (rewrite Nat2Z.inj_succ, Z.pow_succ_r by lia;
         match goal with |- context [Pos.of_uint_acc d ?a] => specialize (IHd a) end;
         assert (0 < 10 ^ Z.of_nat (Decimal.nb_digits d))
           by (apply Z.pow_pos_nonneg; lia);
         nia).
  simpl. lia.
Qed.

Lemma to_uint_normal p : Decimal.unorm (Pos.to_uint p) = Pos.to_uint p.
Proof.
  pose proof (DecimalPos.Unsigned.to_of (Pos.to_uint p)) as H.
  rewrite DecimalPos.Unsigned.of_to in H. symmetry. exact H.
Qed.

(** [Pos.to_uint p] has no leading zero: with [m] digits it lies between
    [10 ^ (m - 1)] and [10 ^ m]. *)
Lemma to_uint_bounds p :
  1 <= Z.of_nat (Decimal.nb_digits (Pos.to_uint p)) /\
  10 ^ (Z.of_nat (Decimal.nb_digits (Pos.to_uint p)) - 1) <= Z.pos p
  < 10 ^ Z.of_nat (Decimal.nb_digits (Pos.to_uint p)).
Proof.
  pose proof (DecimalPos.Unsigned.of_to p) as Hv.
  pose proof (to_uint_normal p) as Hn.
  pose proof (DecimalPos.Unsigned.to_uint_nonzero p) as Hz.
  destruct (Pos.to_uint p) as [|u|u|u|u|u|u|u|u|u|u] eqn:E;
    [ discriminate
    | exfalso; rewrite DecimalFacts.unorm_D0 in Hn; unfold Decimal.unorm in Hn;
      destruct (Decimal.nzhead u) eqn:Hu; try discriminate;
      [ apply Hz; now symmetry
      | match goal with
        | H : Decimal.nzhead _ = Decimal.D0 _ |- _ =>
            exact (DecimalFacts.nzhead_nonzero _ _ H)
        end ]
    | .. ].
  all: cbn [Decimal.nb_digits]; rewrite Nat2Z.inj_succ, Z.pow_succ_r by lia;
       cbn [Pos.of_uint] in Hv; injection Hv as Hv;
       lazymatch type of Hv with
       | Pos.of_uint_acc ?v ?a = _ =>
           pose proof (of_uint_acc_bounds v a) as B; rewrite Hv in B;
           replace (Z.succ (Z.of_nat (Decimal.nb_digits v)) - 1)
             with (Z.of_nat (Decimal.nb_digits v)) by lia;
           assert (0 < 10 ^ Z.of_nat (Decimal.nb_digits v))
             by (apply Z.pow_pos_nonneg; lia)
       end;
       split; [lia|nia].
Qed.

Lemma length_string_of_uint u :
  String.length (NilEmpty.string_of_uint u) = Decimal.nb_digits u.
Proof. induction u; simpl; auto. Qed.

(** [len(str(k))] is the number of decimal digits of [k >= 1]. *)
Lemma str_digits k :
  1 <= k -> 1 <= len (str k) /\ 10 ^ (len (str k) - 1) <= k < 10 ^ len (str k).
Proof.
  intros Hk. destruct k as [|p|p]; try lia.
  unfold len, str. cbn [Z.to_int NilZero.string_of_int].
  pose proof (DecimalPos.Unsigned.to_uint_nonnil p) as Hnn.
  assert (E : NilZero.string_of_uint (Pos.to_uint p)
              = NilEmpty.string_of_uint (Pos.to_uint p))
    by (destruct (Pos.to_uint p); [contradiction|reflexivity..]).
  rewrite E, length_string_of_uint. apply to_uint_bounds.
Qed.

Lemma len_str_mono k n : 1 <= k <= n -> len (str k) <= len (str n).
Proof.
  intros H.
  destruct (str_digits k ltac:(lia)) as [Hk3 [Hk1 Hk2]].
  destruct (str_digits n ltac:(lia)) as [Hn3 [Hn1 Hn2]].
  destruct (Z.le_gt_cases (len (str k)) (len (str n))) as [|Hgt]; [assumption|].
  exfalso.
  assert (10 ^ len (str n) <= 10 ^ (len (str k) - 1))
    by (apply Z.pow_le_mono_r; lia).
  lia.
Qed.

Lemma length_zeros m : String.length (zeros m) = m.
Proof. induction m; simpl; auto. Qed.

(** Up to [n], the numbers formatted to the width of [n] (at least 2) all
    have exactly that width. *)
Lemma len_format_0d n k :
  1 <= k <= n ->
  len (format_0d (Z.max 2 (len (str n))) k) = Z.max 2 (len (str n)).
Proof.
  intros H. rewrite format_0d_nonneg by lia.
  pose proof (len_str_mono k n H) as Hm.
  destruct (str_digits k ltac:(lia)) as [Hk _].
  unfold len in *. rewrite length_append, length_zeros. lia.
Qed.

Lemma decimal_value_format_0d w k :
  0 <= k -> decimal_value (format_0d w k) = Some k.
Proof. apply parse_format_0d. Qed.

End DigitsFacts.

(* ================================================================== *)
(** * Properties of the shard splitter *)
(* ================================================================== *)

Section SplitterClaims.
Import Py Props MoreProps PyFacts Splitter SplitterFacts.

Variable os_path_join : string -> string -> string.
Variable os_path_basename : string -> string.
Variable os_path_splitext : string -> string * string.

Local Abbreviation main :=
  (Splitter.main os_path_join os_path_basename os_path_splitext).
Local Abbreviation main_effects :=
  (Props.main_effects os_path_join os_path_basename os_path_splitext).
Local Abbreviation shard_path :=
  (Props.shard_path os_path_join os_path_basename os_path_splitext).
Local Abbreviation choose_outdir :=
  (Splitter.choose_outdir os_path_basename os_path_splitext).

(** A normal run of [main] is the run [main_effects] describes. *)
Lemma main_normal_run a fs d log :
  fs (input a) = Ok (VDict d) -> distinct_keys d -> 1 <= num_shards a ->
  main a fs = (log, Ok tt) ->
  splittable d /\ log = main_effects a d.
Proof.
  intros Hfs Hnd Hn Hrun.
  destruct (main_inv _ _ _ _ _ _ Hrun) as (d' & Hfs' & Hs).
  rewrite Hfs in Hfs'. injection Hfs' as <-. specialize (Hs Hnd).
  split; [assumption|].
  rewrite (main_total _ _ _ a fs d Hfs Hnd Hn Hs) in Hrun. congruence.
Qed.

(** C2. [transform_items] raises [TypeError] on a record whose [answer]
    is a list while its [choices] is a dict: the record fails the condition
    for being emitted, yet it is not dropped silently. *)
Theorem C2_transform_items_unhashable_answer :
  transform_items
    [VDict [("answer", VList [VStr "A"]); ("choices", VDict [("A", VStr "x")])]]
  = Raise TypeError.
Proof. reflexivity. Qed.

(** C5. On a dataset with pairwise distinct identifiers and [N >= 1], a
    run of [main] that ends normally has written [N] shard documents, and:
    an identifier is in some shard exactly when it is an input identifier
    whose normalized value gives a non-empty result of [transform_items];
    no identifier is in two shards, nor twice in one; and every identifier
    of a shard is mapped to its non-empty list of transformed records. *)
Theorem C5_shards_partition_survivors a fs (d : dict value) log :
  fs (input a) = Ok (VDict d) -> distinct_keys d -> 1 <= num_shards a ->
  main a fs = (log, Ok tt) ->
  List.length (writes log) = Z.to_nat (num_shards a) /\
  (forall pid,
     (exists p doc, In (p, doc) (writes log) /\ In pid (keys (doc_items doc)))
     <-> survives d pid) /\
  (forall i j pi di pj dj pid,
     nth_error (writes log) i = Some (pi, di) ->
     nth_error (writes log) j = Some (pj, dj) ->
     In pid (keys (doc_items di)) -> In pid (keys (doc_items dj)) -> i = j) /\
  (forall p doc, In (p, doc) (writes log) ->
     NoDup (keys (doc_items doc)) /\
     forall pid v, In (pid, v) (doc_items doc) ->
       exists items,
         transform_items (normalize (dict_get d pid)) = Ok items /\
         v = VList items /\ items <> []).
Proof.
  intros Hfs Hnd Hn Hrun.
  destruct (main_normal_run _ _ _ _ Hfs Hnd Hn Hrun) as [Hs ->].
  pose proof (filtered_ids_nodup a d Hnd) as Hfnd.
  assert (Hw : forall p doc, In (p, doc) (writes (main_effects a d)) ->
             exists k, 1 <= k <= num_shards a /\ doc = dump (shard a d k)).
  { intros p doc Hin. rewrite writes_main_effects in Hin.
    apply in_map_iff in Hin as (k & [= _ <-] & Hk). apply range_in in Hk.
    exists k. split; [lia|reflexivity]. }
  assert (Hnth : forall i p doc, nth_error (writes (main_effects a d)) i = Some (p, doc) ->
             0 <= Z.of_nat i < num_shards a /\ doc = dump (shard a d (Z.of_nat i + 1))).
  { intros i p doc Hi.
    apply nth_writes_main_effects_inv in Hi as (B & _ & ->). now split. }
  split; [|split; [|split]].
  - apply length_writes_main_effects.
  - intros pid. rewrite <- (survives_iff a d pid Hnd Hs). split.
    + intros (p & doc & Hin & Hpid). apply Hw in Hin as (k & Hk & ->).
      rewrite keys_shard_doc in Hpid. apply every_nth_incl in Hpid; [assumption|lia|lia].
    + intros Hin. apply In_nth_error in Hin as [idx Hidx].
      pose proof (Z.mod_pos_bound (Z.of_nat idx) (num_shards a) ltac:(lia)) as B.
      exists (shard_path a (Z.of_nat idx mod num_shards a + 1)),
             (dump (shard a d (Z.of_nat idx mod num_shards a + 1))).
      split.
      * rewrite writes_main_effects. apply in_map_iff.
        eexists. split; [reflexivity|]. apply range_in. lia.
      * rewrite keys_shard_doc. apply every_nth_in; [lia|lia|].
        exists idx. split; [assumption|lia].
  - intros i j pi di pj dj pid Hi Hj Hpi Hpj.
    apply Hnth in Hi as [Bi ->]. apply Hnth in Hj as [Bj ->].
    rewrite keys_shard_doc in Hpi, Hpj.
    apply every_nth_in in Hpi as (x & Hx & Ex); [|lia|lia].
    apply every_nth_in in Hpj as (y & Hy & Ey); [|lia|lia].
    rewrite NoDup_nth_error in Hfnd.
    assert (x = y).
    { apply Hfnd; [|congruence]. apply nth_error_Some. congruence. }
    subst y. lia.
  - intros p doc Hin. apply Hw in Hin as (k & Hk & ->). split.
    + rewrite keys_shard_doc. apply every_nth_nodup; [lia|lia|assumption].
    + intros pid v Hv. apply in_shard_doc in Hv as [-> Hpid].
      apply every_nth_incl in Hpid; [|lia|lia].
      apply (survives_iff a d pid Hnd Hs) in Hpid as [_ (items & Hi & Hne)].
      exists items. repeat split; try assumption.
      unfold items_of. rewrite new_items_of_normalize, Hi. reflexivity.
Qed.

(** C6. For [N >= 1], [shard_ids] returns [N] buckets, and place [j] of
    bucket [b] holds the identifier at position [b + j * N] of the list:
    position [idx] goes to bucket [idx mod N], and a bucket keeps the order
    of the list.  In a normal run of [main] the document written as number
    [k] (file [split_<k>]) has bucket [k - 1] of the filtered identifiers
    as its keys, so the identifier at post-filter position [idx] is in
    file number [idx mod N + 1], at place [idx / N]. *)
Theorem C6_round_robin_buckets (ids : list string) (n : Z) :
  1 <= n ->
  (exists buckets,
     shard_ids ids n = Ok buckets /\
     List.length buckets = Z.to_nat n /\
     forall b j, (b < Z.to_nat n)%nat ->
       nth_error (nth b buckets []) j =
       nth_error ids (Z.to_nat (Z.of_nat b + Z.of_nat j * n))) /\
  (forall a fs (d : dict value) log,
     fs (input a) = Ok (VDict d) -> distinct_keys d ->
     num_shards a = n -> filtered_ids a d = ids ->
     main a fs = (log, Ok tt) ->
     (forall k, 1 <= k <= n ->
        exists doc,
          nth_error (writes log) (Z.to_nat (k - 1)) = Some (shard_path a k, doc) /\
          forall j, nth_error (keys (doc_items doc)) j =
                    nth_error ids (Z.to_nat (k - 1 + Z.of_nat j * n))) /\
     (forall idx pid, nth_error ids idx = Some pid ->
        exists doc,
          nth_error (writes log) (Z.to_nat (Z.of_nat idx mod n)) =
            Some (shard_path a (Z.of_nat idx mod n + 1), doc) /\
          nth_error (keys (doc_items doc)) (Z.to_nat (Z.of_nat idx / n)) = Some pid)).
Proof.
  intros Hn. split.
  - rewrite shard_ids_total by assumption. eexists. split; [reflexivity|].
    split; [now rewrite length_map, length_seq|].
    intros b j Hb.
    rewrite (nth_indep _ [] (every_nth n (Z.of_nat 0) ids))
      by now rewrite length_map, length_seq.
    rewrite (map_nth (fun b => every_nth n (Z.of_nat b) ids)), seq_nth by assumption.
    cbn [Nat.add]. apply every_nth_nth; lia.
  - intros a fs d log Hfs Hnd Hna Hids Hrun.
    assert (Hn' : 1 <= num_shards a) by lia.
    destruct (main_normal_run _ _ _ _ Hfs Hnd Hn' Hrun) as [Hs ->].
    assert (Hk : forall k, 1 <= k <= n ->
      exists doc,
        nth_error (writes (main_effects a d)) (Z.to_nat (k - 1))
          = Some (shard_path a k, doc) /\
        forall j, nth_error (keys (doc_items doc)) j =
                  nth_error ids (Z.to_nat (k - 1 + Z.of_nat j * n))).
    { intros k Hk. exists (dump (shard a d k)). split.
      - apply nth_writes_main_effects. lia.
      - intros j. rewrite keys_shard_doc, Hna, Hids. apply every_nth_nth; lia. }
    split; [exact Hk|].
    intros idx pid Hidx.
    pose proof (Z.mod_pos_bound (Z.of_nat idx) n ltac:(lia)) as B.
    destruct (Hk (Z.of_nat idx mod n + 1) ltac:(lia)) as (doc & Hdoc & Hkeys).
    exists doc. split.
    + rewrite <- Hdoc. f_equal. lia.
    + rewrite Hkeys, <- Hidx. f_equal.
      pose proof (Z.div_mod (Z.of_nat idx) n ltac:(lia)) as E.
      assert (0 <= Z.of_nat idx / n) by (apply Z.div_pos; lia).
      rewrite Z2Nat.id by assumption. lia.
Qed.

(** C7. When the top-level JSON value is not an object, [process] and
    [main] both raise [ValueError] with nothing done before: no file
    written, no directory created. *)
Theorem C7_non_object_aborts_before_output fs (inp s o : string) a (v w : value) :
  fs inp = Ok v -> isinstance_dict v = false ->
  fs (input a) = Ok w -> isinstance_dict w = false ->
  Converter.process fs inp s o = ([], Raise ValueError) /\
  main a fs = ([], Raise ValueError).
Proof.
  intros Hv Hvd Hw Hwd. split.
  - unfold Converter.process, lift, rbind. rewrite Hv.
    destruct v; try reflexivity; discriminate.
  - unfold Splitter.main, load_json, lift, rbind. rewrite Hw.
    destruct w; try reflexivity; discriminate.
Qed.

Lemma mkdirs_shard_effects a d ks :
  mkdirs (flat_map (shard_effects os_path_join os_path_basename os_path_splitext a d) ks
          ++ [Print "Done."]) = [].
Proof.
  unfold mkdirs. rewrite flat_map_app. cbn [flat_map app].
  induction ks as [|k ks IH]; [reflexivity|].
  cbn [flat_map]. rewrite flat_map_app. exact IH.
Qed.

(** C8. For [N >= 1] a normal run of [main] first asks for the output
    directory ([os.makedirs] with [exist_ok]) and then writes exactly [N]
    documents, number [k = 1..N] at [split_<k>.json] in that directory.
    The number in the name is [k] zero-padded to the width
    [max(2, len(str(N)))], where [len(str(N))] is the number of decimal
    digits of [N]: it has exactly that many characters, all of them
    decimal digits, and its value is [k].  The [N] names are pairwise
    distinct, and a shard whose bucket is empty is still written, as the
    empty object. *)
Theorem C8_shard_files a fs (d : dict value) log :
  fs (input a) = Ok (VDict d) -> distinct_keys d -> 1 <= num_shards a ->
  main a fs = (log, Ok tt) ->
  let n := num_shards a in
  let w := Z.max 2 (len (str n)) in
  let name := fun k => ("split_" ++ format_0d w k ++ ".json")%string in
  (exists rest, log = MakeDirs (choose_outdir a) :: rest /\ mkdirs rest = []) /\
  (forall o, outdir a = Some o -> o <> "" -> choose_outdir a = o) /\
  map fst (writes log) =
    map (fun k => os_path_join (choose_outdir a) (name k)) (range 1 (n + 1)) /\
  List.length (writes log) = Z.to_nat n /\
  NoDup (map name (range 1 (n + 1))) /\
  (10 ^ (len (str n) - 1) <= n < 10 ^ len (str n)) /\
  (forall k, 1 <= k <= n ->
     len (format_0d w k) = w /\ decimal_value (format_0d w k) = Some k) /\
  (forall k, 1 <= k <= n ->
     every_nth n (k - 1) (filtered_ids a d) = [] ->
     nth_error (writes log) (Z.to_nat (k - 1)) =
       Some (os_path_join (choose_outdir a) (name k), VDict [])).
Proof.
  intros Hfs Hnd Hn Hrun.
  destruct (main_normal_run _ _ _ _ Hfs Hnd Hn Hrun) as [Hs ->].
  cbv zeta. split; [|split; [|split; [|split; [|split; [|split; [|split]]]]]].
  - eexists. split; [reflexivity|]. apply mkdirs_shard_effects.
  - intros o Ho Hne. unfold Splitter.choose_outdir. rewrite Ho.
    destruct (String.eqb_spec o ""); [contradiction|reflexivity].
  - rewrite writes_main_effects, map_map. reflexivity.
  - apply length_writes_main_effects.
  - apply shard_names_nodup.
  - apply DigitsFacts.str_digits. assumption.
  - intros k Hk. split.
    + apply DigitsFacts.len_format_0d. assumption.
    + apply DigitsFacts.decimal_value_format_0d. lia.
  - intros k Hk Hempty. rewrite nth_writes_main_effects by assumption.
    unfold shard. rewrite Hempty. reflexivity.
Qed.

(** C9. With [sort_ids] set, two datasets that hold the same
    identifier-to-value associations in different orders give the same
    run: the same shard documents at the same paths (the whole sequence of
    effects and the outcome agree). *)
Theorem C9_sorted_run_ignores_load_order a fs1 fs2 (d1 d2 : dict value) :
  sort_ids a = true ->
  fs1 (input a) = Ok (VDict d1) -> fs2 (input a) = Ok (VDict d2) ->
  distinct_keys d1 -> Permutation d1 d2 ->
  main a fs1 = main a fs2 /\
  writes (fst (main a fs1)) = writes (fst (main a fs2)).
Proof.
  intros Hsort H1 H2 Hnd Hp.
  assert (E : main a fs1 = main a fs2); [|now rewrite E].
  unfold Splitter.main, load_json.
  unfold lift at 1 5. unfold rbind at 1 6. rewrite H1, H2, Hsort.
  assert (Hk : sorted (keys d1) = sorted (keys d2)).
  { apply sorted_perm_eq. unfold keys. now apply Permutation_map. }
  rewrite Hk.
  assert (Ht : forall ids acc,
             foldM (transform_id d1) ids acc = foldM (transform_id d2) ids acc).
  { intros ids acc. apply foldM_ext. intros tr pid.
    unfold transform_id, dict_get. now rewrite (dict_lookup_perm d1 d2 pid Hp Hnd). }
  rewrite Ht. reflexivity.
Qed.

(** C10. The converter keeps an identifier whose value is the empty
    list: in a normal run it is in "selected" (when among the ten selected
    identifiers) or in "others" (when not), mapped to the empty list.  The
    splitter does not: in a normal run no shard holds it. *)
Theorem C10_empty_list_identifier fs inp (d : dict value) (k : string) :
  fs inp = Ok (VDict d) -> distinct_keys d ->
  dict_lookup d k = Some (VList []) ->
  (forall s o log, Converter.process fs inp s o = (log, Ok tt) ->
     exists sel oth,
       log = [WriteJson s (VDict sel); WriteJson o (VDict oth)] /\
       (In k ten_ids -> dict_lookup sel k = Some (VList [])) /\
       (~ In k ten_ids -> dict_lookup oth k = Some (VList []))) /\
  (forall a log, input a = inp -> 1 <= num_shards a ->
     main a fs = (log, Ok tt) ->
     forall p doc, In (p, doc) (writes log) -> ~ In k (keys (doc_items doc))).
Proof.
  intros Hfs Hnd Hk. split.
  - intros s o log Hrun.
    pose proof (ConverterFacts.process_inv _ _ _ _ _ _ Hfs Hrun) as Hobj.
    rewrite (ConverterFacts.process_total _ _ s o _ Hfs Hnd Hobj) in Hrun.
    injection Hrun as <-.
    exists (routed true d), (routed false d). split; [reflexivity|].
    rewrite <- selected_ids_ten.
    split; intros Hin; apply ConverterFacts.lookup_routed; try assumption;
      exists []; (split; [assumption|]); (split; [|reflexivity]).
    + now apply set_mem_true.
    + destruct (set_mem Converter.selected_ids k) eqn:E; [|reflexivity].
      apply set_mem_true in E. contradiction.
  - intros a log Hinp Hn Hrun p doc Hin Hkin. subst inp.
    destruct (main_normal_run _ _ _ _ Hfs Hnd Hn Hrun) as [Hs ->].
    rewrite writes_main_effects in Hin.
    apply in_map_iff in Hin as (j & [= _ <-] & Hj). apply range_in in Hj.
    rewrite keys_shard_doc in Hkin. apply every_nth_incl in Hkin; [|lia|lia].
    apply filtered_ids_in in Hkin as [_ Hne].
    unfold items_of, dict_get in Hne. rewrite Hk in Hne. discriminate.
Qed.

End SplitterClaims.

(* ================================================================== *)
(** * The properties on the sample inputs *)
(* ================================================================== *)

Section Witnesses.
Import Py Props MoreProps Examples.

Local Abbreviation fs := (fs_with (VDict dataset)).

Ltac distinct := unfold distinct_keys; simpl; repeat constructor; simpl; intuition discriminate.

Lemma C4_converter_routing_witness :
  fs "in.json" = Ok (VDict dataset) /\ distinct_keys dataset /\
  exists sel oth,
    Converter.process fs "in.json" "sel.json" "oth.json" =
      ([WriteJson "sel.json" (VDict sel); WriteJson "oth.json" (VDict oth)], Ok tt) /\
    (forall k, In k (keys sel) -> In k ten_ids).
Proof.
  assert (H1 : fs "in.json" = Ok (VDict dataset)) by reflexivity.
  assert (H2 : distinct_keys dataset) by distinct.
  split; [exact H1|]. split; [exact H2|].
  destruct (C4_converter_routing fs "in.json" "sel.json" "oth.json" dataset _
              H1 H2 eq_refl) as [(sel & oth & Hlog & _ & _ & Hsel & _) _].
  exists sel, oth. split; [now rewrite <- Hlog|exact Hsel].
Defined.

Lemma C5_shards_partition_survivors_witness :
  fs (Splitter.input split_args) = Ok (VDict dataset) /\ distinct_keys dataset /\
  1 <= Splitter.num_shards split_args /\
  exists log,
    Splitter.main Posix.join Posix.basename Posix.splitext split_args fs = (log, Ok tt) /\
    List.length (writes log) = 2%nat.
Proof.
  assert (H1 : fs (Splitter.input split_args) = Ok (VDict dataset)) by reflexivity.
  assert (H2 : distinct_keys dataset) by distinct.
  assert (H3 : 1 <= Splitter.num_shards split_args) by (simpl; lia).
  split; [exact H1|]. split; [exact H2|]. split; [exact H3|].
  eexists. split; [reflexivity|].
  exact (proj1 (C5_shards_partition_survivors Posix.join Posix.basename Posix.splitext
                  split_args fs dataset _ H1 H2 H3 eq_refl)).
Defined.

Lemma C6_round_robin_buckets_witness :
  1 <= 2 /\
  exists buckets,
    Splitter.shard_ids ["a"; "b"; "c"] 2 = Ok buckets /\
    List.length buckets = 2%nat.
Proof.
  assert (H : 1 <= 2) by lia.
  split; [exact H|].
  destruct (C6_round_robin_buckets Posix.join Posix.basename Posix.splitext
              ["a"; "b"; "c"] 2 H) as [(buckets & Hb & Hl & _) _].
  exists buckets. split; [exact Hb|exact Hl].
Defined.

Lemma C7_non_object_aborts_before_output_witness :
  fs_with (VList []) "in.json" = Ok (VList []) /\
  isinstance_dict (VList []) = false /\
  Converter.process (fs_with (VList [])) "in.json" "sel.json" "oth.json"
    = ([], Raise ValueError) /\
  Splitter.main Posix.join Posix.basename Posix.splitext split_args (fs_with (VList []))
    = ([], Raise ValueError).
Proof.
  split; [reflexivity|]. split; [reflexivity|].
  apply (C7_non_object_aborts_before_output Posix.join Posix.basename Posix.splitext
           (fs_with (VList [])) "in.json" "sel.json" "oth.json" split_args
           (VList []) (VList [])); reflexivity.
Defined.

Lemma C8_shard_files_witness :
  fs (Splitter.input MoreExamples.hundred_args) = Ok (VDict dataset) /\
  distinct_keys dataset /\
  1 <= Splitter.num_shards MoreExamples.hundred_args /\
  exists log,
    Splitter.main Posix.join Posix.basename Posix.splitext MoreExamples.hundred_args fs
      = (log, Ok tt) /\
    List.length (writes log) = 100%nat /\
    nth_error (map fst (writes log)) 0 = Some "o/split_001.json" /\
    nth_error (map fst (writes log)) 9 = Some "o/split_010.json" /\
    nth_error (map fst (writes log)) 99 = Some "o/split_100.json".
Proof.
  assert (H1 : fs (Splitter.input MoreExamples.hundred_args) = Ok (VDict dataset))
    by reflexivity.
  assert (H2 : distinct_keys dataset) by distinct.
  assert (H3 : 1 <= Splitter.num_shards MoreExamples.hundred_args) by (simpl; lia).
  split; [exact H1|]. split; [exact H2|]. split; [exact H3|].
  eexists. split; [reflexivity|].
  destruct (C8_shard_files Posix.join Posix.basename Posix.splitext
              MoreExamples.hundred_args fs dataset _ H1 H2 H3 eq_refl)
    as (_ & _ & Hpaths & Hlen & _).
  split; [exact Hlen|]. rewrite Hpaths. repeat split.
Defined.

Lemma C9_sorted_run_ignores_load_order_witness :
  Splitter.sort_ids sorted_args = true /\
  distinct_keys dataset /\ Permutation dataset dataset_swapped /\
  Splitter.main Posix.join Posix.basename Posix.splitext sorted_args fs =
  Splitter.main Posix.join Posix.basename Posix.splitext sorted_args
    (fs_with (VDict dataset_swapped)).
Proof.
  assert (H2 : distinct_keys dataset) by distinct.
  assert (H3 : Permutation dataset dataset_swapped) by apply perm_swap.
  split; [reflexivity|]. split; [exact H2|]. split; [exact H3|].
  exact (proj1 (C9_sorted_run_ignores_load_order Posix.join Posix.basename Posix.splitext
                  sorted_args fs (fs_with (VDict dataset_swapped))
                  dataset dataset_swapped eq_refl eq_refl eq_refl H2 H3)).
Defined.

Lemma C10_empty_list_identifier_witness :
  fs_with (VDict dataset_empty_id) "in.json" = Ok (VDict dataset_empty_id) /\
  distinct_keys dataset_empty_id /\
  dict_lookup dataset_empty_id "10003" = Some (VList []) /\
  exists sel oth,
    Converter.process (fs_with (VDict dataset_empty_id)) "in.json" "sel.json" "oth.json" =
      ([WriteJson "sel.json" (VDict sel); WriteJson "oth.json" (VDict oth)], Ok tt) /\
    dict_lookup sel "10003" = Some (VList []).
Proof.
  assert (H1 : fs_with (VDict dataset_empty_id) "in.json" = Ok (VDict dataset_empty_id))
    by reflexivity.
  assert (H2 : distinct_keys dataset_empty_id) by distinct.
  assert (H3 : dict_lookup dataset_empty_id "10003" = Some (VList [])) by reflexivity.
  split; [exact H1|]. split; [exact H2|]. split; [exact H3|].
  destruct (C10_empty_list_identifier Posix.join Posix.basename Posix.splitext
              (fs_with (VDict dataset_empty_id)) "in.json" dataset_empty_id "10003"
              H1 H2 H3) as [Hconv _].
  edestruct (Hconv "sel.json" "oth.json") as (sel & oth & Hlog & Hsel & _); [reflexivity|].
  exists sel, oth. split; [now rewrite <- Hlog|].
  apply Hsel. unfold ten_ids. simpl. tauto.
Defined.

End Witnesses.

(* ================================================================== *)
(** * More about [shard_ids] *)
(* ================================================================== *)

Module ShardFacts.
Import Py Props PyFacts Splitter SplitterFacts.

Lemma list_pos_bound n j i : list_pos n j = Ok i -> (i < n)%nat.
Proof.
  unfold list_pos.
  destruct (Z.ltb_spec j 0);
    match goal with |- context [?x && ?y] => destruct x eqn:E1, y eqn:E2 end;
    try discriminate; intros [= <-]; lia.
Qed.

Lemma concat_list_update {A} (bs : list (list A)) i x :
  (i < List.length bs)%nat ->
  Permutation (List.concat (list_update bs i (fun b => b ++ [x]))) (x :: List.concat bs).
Proof.
  revert i. induction bs as [|b bs IH]; intros [|i] Hi; simpl in *; try lia.
  - rewrite <- app_assoc. simpl. symmetry. apply Permutation_middle.
  - rewrite IH by lia. symmetry. apply Permutation_middle.
Qed.

Lemma shard_loop_perm n (l : list string) : forall start bs bs',
  foldM (shard_step n) (enumerate start l) bs = Ok bs' ->
  Permutation (List.concat bs') (List.concat bs ++ l) /\ List.length bs' = List.length bs.
Proof.
  induction l as [|pid l IH]; intros start bs bs' H.
  - injection H as <-. now rewrite app_nil_r.
  - cbn [enumerate foldM shard_step] in H.
    destruct (n =? 0); [discriminate|].
    destruct (list_pos (List.length bs) (start mod n)) as [i|e] eqn:Hpos; [|discriminate].
    cbn [bind] in H. apply list_pos_bound in Hpos.
    apply IH in H as [Hp Hl]. rewrite length_list_update in Hl. split; [|assumption].
    rewrite Hp, concat_list_update by assumption.
    cbn [app]. apply Permutation_middle.
Qed.

Lemma concat_repeat_nil {A} k : List.concat (repeat (@nil A) k) = [].
Proof. induction k; simpl; auto. Qed.

Lemma length_every_nth_from {A} n b (l : list A) :
  1 <= n -> 0 <= b < n ->
  forall start,
    Z.of_nat (List.length (every_nth_from start n b l)) =
    (Z.of_nat (List.length l) + n - 1 - (b - start) mod n) / n.
Proof.
  intros Hn Hb. induction l as [|x l IH]; intros start.
  - pose proof (Z.mod_pos_bound (b - start) n ltac:(lia)) as B.
    unfold every_nth_from. simpl. symmetry. apply Z.div_small. lia.
  - rewrite every_nth_from_cons.
    destruct (Z.eqb_spec (start mod n) b) as [E|E].
    + destruct (mod_hit _ _ _ Hn E) as [H0 H1]. rewrite H0.
      cbn [List.length]. rewrite Nat2Z.inj_succ, IH, H1.
      replace (Z.of_nat (List.length l) + n - 1 - (n - 1))
        with (Z.of_nat (List.length l)) by lia.
      replace (Z.of_nat (S (List.length l)) + n - 1 - 0)
        with (Z.of_nat (List.length l) + 1 * n) by lia.
      rewrite Z.div_add by lia. lia.
    + destruct (mod_miss _ _ _ Hn Hb E) as [H0 H1].
      rewrite IH, H1. cbn [List.length]. f_equal. lia.
Qed.

Lemma length_every_nth {A} n b (l : list A) :
  1 <= n -> 0 <= b < n ->
  Z.of_nat (List.length (every_nth n b l)) = (Z.of_nat (List.length l) + n - 1 - b) / n.
Proof.
  intros Hn Hb. unfold every_nth. rewrite length_every_nth_from by assumption.
  now rewrite Z.sub_0_r, Z.mod_small.
Qed.

Lemma shard_ids_nonpositive (ids : list string) n :
  n <= 0 ->
  shard_ids ids n =
  match ids with
  | [] => Ok []
  | _ :: _ => Raise (if n =? 0 then ZeroDivisionError else IndexError)
  end.
Proof.
  intros Hn. unfold shard_ids.
  replace (Z.to_nat n) with O by lia. cbn [repeat].
  destruct ids as [|pid ids]; [reflexivity|].
  cbn [enumerate foldM shard_step].
  destruct (Z.eqb_spec n 0); [reflexivity|].
  rewrite Z.mod_0_l by assumption. reflexivity.
Qed.

End ShardFacts.

Section ShardIdsProperties.
Import Py Props PyFacts Splitter SplitterFacts ShardFacts.

(** Whatever [n] is, when [shard_ids] returns, the buckets taken together
    hold every identifier of the list exactly as often as the list does:
    nothing is lost and nothing is added, and there are [max(n, 0)]
    buckets. *)
Theorem shard_ids_keeps_every_id (ids : list string) (n : Z) buckets :
  shard_ids ids n = Ok buckets ->
  Permutation (List.concat buckets) ids /\ List.length buckets = Z.to_nat n.
Proof.
  unfold shard_ids. intros H. apply shard_loop_perm in H as [Hp Hl].
  rewrite concat_repeat_nil in Hp. rewrite repeat_length in Hl. now split.
Qed.

Lemma shard_ids_keeps_every_id_witness :
  shard_ids ["a"; "b"; "c"] 2 = Ok [["a"; "c"]; ["b"]] /\
  Permutation (List.concat [["a"; "c"]; ["b"]]) ["a"; "b"; "c"].
Proof.
  split; [reflexivity|].
  exact (proj1 (shard_ids_keeps_every_id ["a"; "b"; "c"] 2 [["a"; "c"]; ["b"]] eq_refl)).
Defined.

(** For [n >= 1] the buckets are balanced: bucket [b] of a list of [M]
    identifiers has [ceil((M - b) / n)] of them, so every bucket has
    [M / n] or [M / n + 1] identifiers, and an earlier bucket never has
    fewer than a later one. *)
Theorem shard_ids_balanced (ids : list string) (n : Z) :
  1 <= n ->
  exists buckets,
    shard_ids ids n = Ok buckets /\
    forall b, (b < Z.to_nat n)%nat ->
      let size := Z.of_nat (List.length (nth b buckets [])) in
      let M := Z.of_nat (List.length ids) in
      size = (M + n - 1 - Z.of_nat b) / n /\
      M / n <= size <= M / n + 1 /\
      forall b', (b <= b')%nat ->
        Z.of_nat (List.length (nth b' buckets [])) <= size.
Proof.
  intros Hn. rewrite shard_ids_total by assumption. eexists. split; [reflexivity|].
  assert (Hnth : forall b, (b < Z.to_nat n)%nat ->
            nth b (map (fun b => every_nth n (Z.of_nat b) ids) (seq 0 (Z.to_nat n))) []
            = every_nth n (Z.of_nat b) ids).
  { intros b Hb.
    rewrite (nth_indep _ [] (every_nth n (Z.of_nat 0) ids))
      by now rewrite length_map, length_seq.
    now rewrite (map_nth (fun b => every_nth n (Z.of_nat b) ids)), seq_nth. }
  intros b Hb. cbv zeta. rewrite (Hnth b Hb), length_every_nth by lia.
  split; [reflexivity|]. split.
  - split.
    + apply Z.div_le_mono; lia.
    + replace (Z.of_nat (List.length ids) / n + 1)
        with ((Z.of_nat (List.length ids) + 1 * n) / n)
        by (rewrite Z.div_add by lia; reflexivity).
      apply Z.div_le_mono; lia.
  - intros b' Hbb'.
    destruct (Nat.ltb_spec b' (Z.to_nat n)) as [Hb'|Hb'].
    + rewrite (Hnth b' Hb'), length_every_nth by lia. apply Z.div_le_mono; lia.
    + rewrite nth_overflow by (now rewrite length_map, length_seq).
      cbn [List.length]. apply Z.div_pos; lia.
Qed.

Lemma shard_ids_balanced_witness :
  1 <= 2 /\
  exists buckets,
    shard_ids ["a"; "b"; "c"] 2 = Ok buckets /\
    Z.of_nat (List.length (nth 1 buckets [])) = 1.
Proof.
  assert (H : 1 <= 2) by lia.
  split; [exact H|].
  destruct (shard_ids_balanced ["a"; "b"; "c"] 2 H) as (buckets & Hb & Hsize).
  exists buckets. split; [exact Hb|].
  exact (proj1 (Hsize 1%nat ltac:(simpl; lia))).
Defined.

(** With [n <= 0] there is no bucket: [shard_ids] returns the empty list
    of buckets for an empty list of identifiers and raises otherwise,
    [ZeroDivisionError] for [n = 0] ([idx % n]) and [IndexError] for
    [n < 0] ([buckets[...]] on the empty list). *)
Theorem shard_ids_without_buckets (ids : list string) (n : Z) :
  n <= 0 ->
  shard_ids ids n =
  match ids with
  | [] => Ok []
  | _ :: _ => Raise (if n =? 0 then ZeroDivisionError else IndexError)
  end.
Proof. apply shard_ids_nonpositive. Qed.

Lemma shard_ids_without_buckets_witness :
  -2 <= 0 /\ shard_ids ["a"; "b"] (-2) = Raise IndexError.
Proof.
  split; [lia|].
  exact (shard_ids_without_buckets ["a"; "b"] (-2) ltac:(lia)).
Defined.

End ShardIdsProperties.

(* ================================================================== *)
(** * More about [transform_items] and [convert_record] *)
(* ================================================================== *)

Module TransformFacts.
Import Py Props MoreProps PyFacts Splitter SplitterFacts.

Lemma dict_get_str d k a :
  dict_get d k = VStr a -> dict_lookup d k = Some (VStr a).
Proof.
  unfold dict_get. destruct (dict_lookup d k); [now intros ->|discriminate].
Qed.

Lemma emitted_cases r :
  emitted (VDict r) = [] \/
  exists rec, emitted (VDict r) = [rec] /\ split_record_of r rec.
Proof.
  unfold emitted, split_record_of. cbn [transform_item].
  unfold dict_get_default.
  destruct (dict_lookup r "choices") as [[| | | | | |c]|] eqn:Hc; try (now left).
  - destruct (dict_get r "answer") as [| | | |a| |] eqn:Ha; try (now left).
    apply dict_get_str in Ha.
    cbn [dict_contains dict_get_obj bind]. unfold dict_mem.
    destruct (dict_lookup c a) as [fact|] eqn:Hf; [|now left].
    assert (Hg : dict_get c a = fact) by (unfold dict_get; now rewrite Hf).
    rewrite Hg. cbn [negb bind].
    destruct fact eqn:Efact; try (now left); right; eexists; (split; [reflexivity|]);
      exists a, c; eexists; repeat split; try eassumption; try discriminate.
  - destruct (dict_get r "answer") as [| | | |a| |] eqn:Ha; now left.
Qed.

Lemma emitted_non_object it : isinstance_dict it = false -> emitted it = [].
Proof. now destruct it. Qed.

Lemma transform_item_shift out it :
  transform_item out it = bind (transform_item [] it) (fun o => Ok (out ++ o)).
Proof.
  destruct it as [| | | | | |r]; try reflexivity.
  cbn [transform_item].
  destruct (dict_get_default r "choices" (VDict [])) as [| | | | | |c];
    cbn [bind]; rewrite ?app_nil_r; try reflexivity.
  destruct (dict_contains c (dict_get r "answer")) as [present|e]; [|reflexivity].
  destruct present; cbn [negb bind]; [|now rewrite app_nil_r].
  destruct (dict_get_obj c (dict_get r "answer")) as [fact|e]; [|reflexivity].
  cbn [bind]. destruct fact; cbn [bind app]; now rewrite ?app_nil_r.
Qed.

Lemma transform_loop_shift items : forall out,
  foldM transform_item items out =
  bind (transform_items items) (fun o => Ok (out ++ o)).
Proof.
  unfold transform_items.
  induction items as [|it items IH]; intros out.
  - simpl. now rewrite app_nil_r.
  - cbn [foldM]. rewrite (transform_item_shift out it).
    destruct (transform_item [] it) as [e|x]; [|reflexivity].
    cbn [bind app]. rewrite (IH (out ++ e)), (IH e).
    destruct (foldM transform_item items []) as [o|x]; [|reflexivity].
    cbn [bind]. now rewrite app_assoc.
Qed.

Lemma transform_item_raises out it e :
  transform_item out it = Raise e ->
  item_ok it = false /\
  e = if isinstance_dict it then TypeError else AttributeError.
Proof.
  destruct it as [| | | | | |r]; try (intros [= <-]; now split).
  cbn [transform_item item_ok isinstance_dict].
  destruct (dict_get_default r "choices" (VDict [])) as [| | | | | |c];
    try discriminate.
  destruct (dict_get r "answer"); cbn [dict_contains dict_get_obj bind hashable];
    try (destruct (negb _); [discriminate|]);
    try (destruct (dict_get c _); discriminate);
    try discriminate; intros [= <-]; now split.
Qed.

Lemma transform_items_concat l1 l2 :
  transform_items (l1 ++ l2) =
  bind (transform_items l1) (fun o1 =>
  bind (transform_items l2) (fun o2 => Ok (o1 ++ o2))).
Proof.
  unfold transform_items at 1. rewrite foldM_app.
  fold (transform_items l1).
  destruct (transform_items l1) as [o1|e]; [|reflexivity].
  cbn [bind]. apply transform_loop_shift.
Qed.

End TransformFacts.

Section TransformProperties.
Import Py Props MoreProps PyFacts Converter ConverterFacts Splitter SplitterFacts.
Import TransformFacts.

(** When [transform_items] returns, it returns at most as many records as
    it was given, and every one of them comes from an object of the input
    whose [answer] is a string key of its dict [choices] with a value other
    than [None]: it has exactly the fields [name], [question], [fact], and
    [fact] is that value, never [None]. *)
Theorem transform_items_output_shape (items out : list value) :
  transform_items items = Ok out ->
  (List.length out <= List.length items)%nat /\
  Forall (fun rec => exists r, In (VDict r) items /\ split_record_of r rec) out.
Proof.
  intros H.
  assert (Hok : forallb item_ok items = true).
  { destruct (forallb item_ok items) eqn:E; [reflexivity|].
    destruct (transform_items_raise items E) as [e He]. congruence. }
  rewrite (transform_items_ok items Hok) in H. injection H as <-. clear Hok.
  induction items as [|it items [IHl IHf]]; [split; [reflexivity|constructor]|].
  cbn [flat_map]. rewrite length_app, Forall_app.
  assert (Hit : (List.length (emitted it) <= 1)%nat /\
                Forall (fun rec => exists r, In (VDict r) (it :: items) /\
                                             split_record_of r rec) (emitted it)).
  { destruct it as [| | | | | |r]; try (split; [simpl; lia|constructor]).
    destruct (emitted_cases r) as [->|(rec & -> & Hrec)].
    - split; [simpl; lia|constructor].
    - split; [simpl; lia|]. constructor; [|constructor].
      exists r. split; [now left|assumption]. }
  destruct Hit as [Hl Hf]. split; [cbn [List.length]; lia|]. split; [assumption|].
  eapply Forall_impl; [|exact IHf].
  intros rec (r & Hin & Hrec). exists r. split; [now right|assumption].
Qed.

Lemma transform_items_output_shape_witness :
  transform_items [VDict MoreExamples.good_record; VNone] = Raise AttributeError /\
  transform_items [VDict MoreExamples.good_record] =
    Ok [VDict [("name", VStr "n"); ("question", VStr "Q"); ("fact", VStr "fact1")]] /\
  (List.length [VDict [("name", VStr "n"); ("question", VStr "Q"); ("fact", VStr "fact1")]]
   <= List.length [VDict MoreExamples.good_record])%nat.
Proof.
  split; [reflexivity|]. split; [reflexivity|].
  exact (proj1 (transform_items_output_shape [VDict MoreExamples.good_record] _ eq_refl)).
Defined.

(** [transform_items] returns exactly when every item is an object whose
    [answer] is hashable or whose [choices] is present and not a dict.
    Otherwise it raises at the first item that is not: [AttributeError] for
    an item that is not an object ([it.get]), [TypeError] for an object with
    a list or dict as [answer] ([ans not in choices]); the items after it
    are not looked at. *)
Theorem transform_items_error_behaviour (l1 l2 : list value) (it : value) :
  forallb item_ok l1 = true ->
  (item_ok it = true ->
   transform_items (l1 ++ [it]) = Ok (flat_map emitted l1 ++ emitted it)) /\
  (item_ok it = false ->
   transform_items (l1 ++ it :: l2) =
   Raise (if isinstance_dict it then TypeError else AttributeError)).
Proof.
  intros H1. split; intros Hit.
  - rewrite transform_items_ok.
    + now rewrite flat_map_app; cbn [flat_map]; rewrite app_nil_r.
    + rewrite forallb_app, H1. cbn [forallb]. now rewrite Hit.
  - unfold transform_items. rewrite foldM_app.
    rewrite transform_loop_ok by assumption. cbn [bind foldM app].
    destruct (transform_item_raise (flat_map emitted l1) it Hit) as [e He].
    rewrite He. cbn [bind]. apply transform_item_raises in He as [_ ->]. reflexivity.
Qed.

Lemma transform_items_error_behaviour_witness :
  forallb item_ok [VDict MoreExamples.good_record] = true /\
  transform_items ([VDict MoreExamples.good_record] ++ MoreExamples.bad_record :: [VNone])
  = Raise TypeError.
Proof.
  split; [reflexivity|].
  exact (proj2 (transform_items_error_behaviour
                  [VDict MoreExamples.good_record] [VNone] MoreExamples.bad_record eq_refl)
               eq_refl).
Defined.

(** Records are transformed one by one: on a concatenation,
    [transform_items] gives the concatenation of the results, and raises
    what the first part raises, or else what the second part raises. *)
Theorem transform_items_app (l1 l2 : list value) :
  transform_items (l1 ++ l2) =
  bind (transform_items l1) (fun o1 =>
  bind (transform_items l2) (fun o2 => Ok (o1 ++ o2))).
Proof. apply transform_items_concat. Qed.

End TransformProperties.

(* ================================================================== *)
(** * The converter and the splitter on the same records *)
(* ================================================================== *)

Section ConverterVersusSplitter.
Import Py Props MoreProps PyFacts Converter ConverterFacts Splitter SplitterFacts.
Import TransformFacts.

(** On an object that [transform_items] accepts, the two scripts resolve
    the same [fact]: the splitter keeps the record exactly when the
    converter's [fact] is not [None], and then its record has the
    converter's [name], [question] and [fact]. *)
Theorem converter_and_splitter_agree (r : dict value) :
  item_ok (VDict r) = true ->
  exists fact,
    convert_record (VDict r) =
      Ok (VDict [("question", dict_get r "question"); ("fact", fact);
                 ("name", dict_get r "name")]) /\
    transform_items [VDict r] =
      Ok (match fact with
          | VNone => []
          | _ => [VDict [("name", dict_get r "name");
                         ("question", dict_get r "question"); ("fact", fact)]]
          end).
Proof.
  intros Hok. eexists. split; [reflexivity|].
  unfold transform_items. cbn [foldM transform_item].
  unfold item_ok in Hok.
  assert (Hg : dict_get r "choices" =
               match dict_lookup r "choices" with Some v => v | None => VNone end)
    by reflexivity.
  assert (Hd : dict_get_default r "choices" (VDict []) =
               match dict_lookup r "choices" with Some v => v | None => VDict [] end)
    by reflexivity.
  rewrite Hd in *. rewrite Hg. clear Hg Hd.
  generalize dependent (dict_get r "answer"). intros ans Hok.
  unfold py_or.
  destruct (dict_lookup r "choices") as [[| | | | | |c]|].
  1-6: destruct ans; try reflexivity; destruct (truthy _); reflexivity.
  - destruct ans as [| | | |a| |]; try discriminate;
      cbn [dict_contains dict_get_obj bind negb]; try reflexivity.
    unfold dict_mem, dict_get.
    destruct c as [|kv c]; [reflexivity|]. cbn [truthy].
    destruct (dict_lookup (kv :: c) a) as [fact|]; [|reflexivity].
    cbn [negb bind]. destruct fact; reflexivity.
  - destruct ans as [| | | |a| |]; try discriminate; reflexivity.
Qed.

Lemma converter_and_splitter_agree_witness :
  item_ok (VDict MoreExamples.good_record) = true /\
  exists fact,
    convert_record (VDict MoreExamples.good_record) =
      Ok (VDict [("question", VStr "Q"); ("fact", fact); ("name", VStr "n")]) /\
    transform_items [VDict MoreExamples.good_record] =
      Ok (match fact with
          | VNone => []
          | _ => [VDict [("name", VStr "n"); ("question", VStr "Q"); ("fact", fact)]]
          end).
Proof.
  split; [reflexivity|].
  exact (converter_and_splitter_agree MoreExamples.good_record eq_refl).
Defined.

(** The splitter keeps nothing of what the converter produces: the
    converted records have neither [answer] nor [choices], so
    [transform_items] drops every one of them, without raising. *)
Theorem splitter_drops_converted_records (items converted : list value) :
  mapM convert_record items = Ok converted ->
  transform_items converted = Ok [].
Proof.
  intros H. apply mapM_convert_ok in H as [Hall ->].
  induction Hall as [|it items Hit _ IH]; [reflexivity|].
  change (map Props.converted (it :: items))
    with ([Props.converted it] ++ map Props.converted items).
  rewrite transform_items_concat, IH.
  destruct it; try discriminate. reflexivity.
Qed.

Lemma splitter_drops_converted_records_witness :
  mapM convert_record [VDict MoreExamples.good_record] =
    Ok [VDict [("question", VStr "Q"); ("fact", VStr "fact1"); ("name", VStr "n")]] /\
  transform_items
    [VDict [("question", VStr "Q"); ("fact", VStr "fact1"); ("name", VStr "n")]] = Ok [].
Proof.
  split; [reflexivity|].
  exact (splitter_drops_converted_records [VDict MoreExamples.good_record] _ eq_refl).
Defined.

End ConverterVersusSplitter.

(* ================================================================== *)
(** * More about the converter *)
(* ================================================================== *)

Section ConverterProperties.
Import Py Props MoreProps PyFacts Converter ConverterFacts ConverterScript.

Lemma process_items_raise_or_ok d acc :
  (exists so, foldM process_item d acc = Ok so) \/
  foldM process_item d acc = Raise AttributeError.
Proof.
  revert acc. induction d as [|[k v] d IH]; intros [sel oth].
  - left. eexists. reflexivity.
  - cbn [foldM process_item].
    destruct v; try (cbn [bind]; apply IH).
    destruct (mapM convert_record l) as [c|e] eqn:Hc.
    + cbn [bind]. destruct (set_mem selected_ids k); cbn [bind]; apply IH.
    + right. cbn [bind]. f_equal.
      clear - Hc. revert e Hc. induction l as [|it l IHl]; intros e Hc; [discriminate|].
      cbn [mapM] in Hc.
      destruct (convert_record it) as [y|e'] eqn:Hit.
      * cbn [bind] in Hc. destruct (mapM convert_record l) as [ys|e''];
          [discriminate|]. cbn [bind] in Hc. injection Hc as <-. now apply IHl.
      * cbn [bind] in Hc. injection Hc as <-.
        destruct it; cbn [convert_record] in Hit; congruence.
Qed.

Lemma process_normal_log fs (inp s o : string) log :
  process fs inp s o = (log, Ok tt) ->
  exists d sel oth,
    fs inp = Ok (VDict d) /\
    log = [WriteJson s (VDict sel); WriteJson o (VDict oth)].
Proof.
  unfold process, lift, rbind.
  destruct (fs inp) as [[| | | | | |d]|e]; try discriminate.
  destruct (foldM process_item d ([], [])) as [[sel oth]|e]; [|discriminate].
  intros [= <-]. exists d, sel, oth. split; reflexivity.
Qed.

(** A list item that is not an object, under any identifier, makes
    [process] raise [AttributeError] during the conversion, before either
    output file is opened: nothing is written, not even the records of the
    identifiers that come before it. *)
Theorem process_non_object_item_writes_nothing fs (inp s o : string) (d : dict value) :
  fs inp = Ok (VDict d) -> ~ records_are_objects d ->
  process fs inp s o = ([], Raise AttributeError).
Proof.
  intros Hfs Hbad. unfold process, lift, rbind. rewrite Hfs.
  destruct (process_items_raise_or_ok d ([], [])) as [[so Hso]|Hr].
  - exfalso. apply Hbad. eapply process_items_inv; eauto.
  - now rewrite Hr.
Qed.

Lemma process_non_object_item_writes_nothing_witness :
  Examples.fs_with (VDict MoreExamples.dataset_non_object) "in.json"
    = Ok (VDict MoreExamples.dataset_non_object) /\
  ~ records_are_objects MoreExamples.dataset_non_object /\
  process (Examples.fs_with (VDict MoreExamples.dataset_non_object))
          "in.json" "sel.json" "oth.json" = ([], Raise AttributeError).
Proof.
  assert (H1 : Examples.fs_with (VDict MoreExamples.dataset_non_object) "in.json"
               = Ok (VDict MoreExamples.dataset_non_object)) by reflexivity.
  assert (H2 : ~ records_are_objects MoreExamples.dataset_non_object).
  { intros H. inversion H as [|? ? Hv _]. inversion Hv as [|? ? Hit _]. discriminate Hit. }
  split; [exact H1|]. split; [exact H2|].
  exact (process_non_object_item_writes_nothing _ "in.json" "sel.json" "oth.json" _ H1 H2).
Defined.

Lemma keys_routed_in_order b d :
  keys (routed b d) =
  list_valued_ids (fun k => Bool.eqb (set_mem selected_ids k) b) d.
Proof.
  unfold list_valued_ids, routed.
  induction d as [|[k v] d IH]; [reflexivity|].
  cbn [flat_map filter fst snd]. rewrite keys_app, IH.
  destruct v; cbn [isinstance_list andb]; try reflexivity.
  destruct (Bool.eqb (set_mem selected_ids k) b); reflexivity.
Qed.

(** [process] keeps the order of the input: the identifiers of "selected"
    are the list-valued identifiers of the input that are among
    "10000" .. "10009", in input order, and those of "others" are the other
    list-valued identifiers, in input order. *)
Theorem process_keeps_identifier_order fs inp s o (d : dict value) log :
  fs inp = Ok (VDict d) -> distinct_keys d ->
  process fs inp s o = (log, Ok tt) ->
  exists sel oth,
    log = [WriteJson s (VDict sel); WriteJson o (VDict oth)] /\
    keys sel = list_valued_ids (fun k => set_mem ten_ids k) d /\
    keys oth = list_valued_ids (fun k => negb (set_mem ten_ids k)) d.
Proof.
  intros Hfs Hnd Hrun.
  pose proof (process_inv _ _ _ _ _ _ Hfs Hrun) as Hobj.
  rewrite (process_total _ _ s o _ Hfs Hnd Hobj) in Hrun. injection Hrun as <-.
  exists (routed true d), (routed false d). split; [reflexivity|].
  rewrite !keys_routed_in_order. unfold list_valued_ids.
  rewrite selected_ids_ten.
  split; f_equal; apply filter_ext; intros [k v]; cbn [fst snd];
    destruct (set_mem ten_ids k); reflexivity.
Qed.

Lemma process_keeps_identifier_order_witness :
  Examples.fs_with (VDict Examples.dataset) "in.json" = Ok (VDict Examples.dataset) /\
  distinct_keys Examples.dataset /\
  exists sel oth,
    process (Examples.fs_with (VDict Examples.dataset)) "in.json" "sel.json" "oth.json" =
      ([WriteJson "sel.json" (VDict sel); WriteJson "oth.json" (VDict oth)], Ok tt) /\
    keys sel = ["10000"] /\ keys oth = ["20000"].
Proof.
  assert (H1 : Examples.fs_with (VDict Examples.dataset) "in.json"
               = Ok (VDict Examples.dataset)) by reflexivity.
  assert (H2 : distinct_keys Examples.dataset)
    by (unfold distinct_keys; simpl; repeat constructor; simpl; intuition discriminate).
  split; [exact H1|]. split; [exact H2|].
  destruct (process_keeps_identifier_order
              (Examples.fs_with (VDict Examples.dataset)) "in.json" "sel.json" "oth.json"
              Examples.dataset _ H1 H2 eq_refl) as (sel & oth & Hlog & Hs & Ho).
  exists sel, oth. split; [now rewrite <- Hlog|]. split; assumption.
Defined.

(** The script called with a number of arguments other than three prints
    the usage line and exits with status 1, without reading the input or
    writing anything.  A run of the script that reaches the end of the file
    was called with exactly three arguments, read an object at the first
    and wrote "selected" at the second and then "others" at the third. *)
Theorem script_arguments_and_outputs (argv : list string) fs :
  (List.length argv <> 4%nat -> script argv fs = ([Print usage], Exit 1)) /\
  (forall log, script argv fs = (log, Finished) ->
     exists prog inp s o d sel oth,
       argv = [prog; inp; s; o] /\ fs inp = Ok (VDict d) /\
       log = [WriteJson s (VDict sel); WriteJson o (VDict oth)]).
Proof.
  unfold script.
  destruct (Z.eqb_spec (Z.of_nat (List.length argv)) 4) as [E|E]; cbn [negb].
  - split; [intros H; lia|].
    destruct argv as [|prog [|inp [|s [|o [|x argv]]]]]; cbn [List.length] in E; try lia.
    cbn [nth]. intros log.
    destruct (process fs inp s o) as [plog [[]|e]] eqn:Hp; [|discriminate].
    intros [= <-]. apply process_normal_log in Hp as (d & sel & oth & Hfs & ->).
    exists prog, inp, s, o, d, sel, oth. repeat split. assumption.
  - split; [reflexivity|]. discriminate.
Qed.

End ConverterProperties.



(* ================================================================== *)
(** * More about the splitter's [main] *)
(* ================================================================== *)

Module MainFacts2.
Import Py Props MoreProps PyFacts Splitter SplitterFacts ShardFacts.



Lemma total_items_count (sd : dict (list value)) :
  total_items sd = Z.of_nat (record_count (doc_items (dump sd))).
Proof.
  unfold total_items, dump, record_count. cbn [doc_items].
  rewrite map_map. cbn [snd].
  assert (H : forall acc,
             fold_left (fun s kv => s + Z.of_nat (List.length (snd kv))) sd acc =
             acc + Z.of_nat (list_sum (map (fun kv => List.length (snd kv)) sd))).
  { induction sd as [|kv sd IH]; intros acc; simpl; [lia|].
    rewrite IH. lia. }
  now rewrite H.
Qed.

Lemma list_sum_perm l1 l2 : Permutation l1 l2 -> list_sum l1 = list_sum l2.
Proof. induction 1; simpl; lia. Qed.

Lemma list_sum_concat_map {A} (g : A -> nat) (ls : list (list A)) :
  list_sum (map (fun l => list_sum (map g l)) ls) = list_sum (map g (List.concat ls)).
Proof.
  induction ls as [|l ls IH]; [reflexivity|].
  cbn [map List.concat]. rewrite map_app, list_sum_app, <- IH. reflexivity.
Qed.

Lemma list_sum_survivors d ids :
  list_sum (map (fun pid => List.length (items_of d pid)) (survivors d ids)) =
  list_sum (map (fun pid => List.length (items_of d pid)) ids).
Proof.
  unfold survivors. induction ids as [|pid ids IH]; [reflexivity|].
  cbn [filter map].
  destruct (items_of d pid) eqn:E; cbn [nonempty].
  - rewrite IH. reflexivity.
  - cbn [map]. rewrite E. simpl. now rewrite IH.
Qed.

End MainFacts2.

Section MainProperties.
Import Py Props MoreProps PyFacts Splitter SplitterFacts ShardFacts MainFacts2.

Variable os_path_join : string -> string -> string.
Variable os_path_basename : string -> string.
Variable os_path_splitext : string -> string * string.

Local Abbreviation main :=
  (Splitter.main os_path_join os_path_basename os_path_splitext).
Local Abbreviation main_effects :=
  (Props.main_effects os_path_join os_path_basename os_path_splitext).
Local Abbreviation shard_path :=
  (Props.shard_path os_path_join os_path_basename os_path_splitext).
Local Abbreviation choose_outdir :=
  (Splitter.choose_outdir os_path_basename os_path_splitext).



Lemma main_normal_effects a fs d log :
  fs (input a) = Ok (VDict d) -> distinct_keys d -> 1 <= num_shards a ->
  main a fs = (log, Ok tt) -> log = main_effects a d.
Proof.
  intros Hfs Hnd Hn Hrun.
  destruct (main_inv _ _ _ _ _ _ Hrun) as (d' & Hfs' & Hs).
  rewrite Hfs in Hfs'. injection Hfs' as <-. specialize (Hs Hnd).
  rewrite (main_total _ _ _ a fs d Hfs Hnd Hn Hs) in Hrun. congruence.
Qed.

(** The splitter's counterpart of the converter's record count: in a
    normal run with [N >= 1] the shard files together hold exactly the
    records that [transform_items] keeps over all identifiers of the
    input; sharding loses none and repeats none. *)
Theorem splitter_writes_every_kept_record a fs (d : dict value) log :
  fs (input a) = Ok (VDict d) -> distinct_keys d -> 1 <= num_shards a ->
  main a fs = (log, Ok tt) ->
  records_written log = records_kept d.
Proof.
  intros Hfs Hnd Hn Hrun.
  rewrite (main_normal_effects _ _ _ _ Hfs Hnd Hn Hrun).
  unfold records_written, records_kept.
  rewrite writes_main_effects, map_map. cbn [snd].
  set (g := fun pid => List.length (items_of d pid)).
  assert (Hshard : forall k,
            record_count (doc_items (dump (shard a d k))) =
            list_sum (map g (every_nth (num_shards a) (k - 1) (filtered_ids a d)))).
  { intros k. unfold record_count, dump, shard. cbn [doc_items].
    rewrite !map_map. cbn [snd fst]. reflexivity. }
  rewrite (map_ext _ _ Hshard).
  unfold range. rewrite map_map.
  replace (Z.to_nat (num_shards a + 1 - 1)) with (Z.to_nat (num_shards a)) by lia.
  rewrite (map_ext _ (fun b => list_sum (map g (every_nth (num_shards a) (Z.of_nat b)
                                                  (filtered_ids a d)))))
    by (intros b; do 3 f_equal; lia).
  rewrite <- (map_map (fun b => every_nth (num_shards a) (Z.of_nat b) (filtered_ids a d))
                      (fun l => list_sum (map g l))).
  rewrite list_sum_concat_map.
  pose proof (shard_ids_total (filtered_ids a d) (num_shards a) Hn) as Hsh.
  apply shard_loop_perm in Hsh as [Hp _].
  rewrite concat_repeat_nil in Hp. cbn [app] in Hp.
  rewrite (list_sum_perm _ _ (Permutation_map g Hp)).
  unfold filtered_ids. unfold g. rewrite list_sum_survivors.
  rewrite <- (list_sum_perm _ _ (Permutation_map _ (processing_order_perm a d))).
  unfold keys. now rewrite map_map.
Qed.

(** A normal run of [main] with [N >= 1] is: the output directory is made,
    then every shard document is written and at once followed by one
    printed line that gives its path, the number of identifiers in it and
    the number of records in it, and last "Done." is printed. *)
Theorem main_reports_what_it_writes a fs (d : dict value) log :
  fs (input a) = Ok (VDict d) -> distinct_keys d -> 1 <= num_shards a ->
  main a fs = (log, Ok tt) ->
  log = MakeDirs (choose_outdir a)
        :: flat_map (fun w => [WriteJson (fst w) (snd w); Print (summary_of w)])
                    (writes log)
        ++ [Print "Done."].
Proof.
  intros Hfs Hnd Hn Hrun.
  rewrite (main_normal_effects _ _ _ _ Hfs Hnd Hn Hrun) at 2.
  rewrite (main_normal_effects _ _ _ _ Hfs Hnd Hn Hrun) at 1.
  rewrite writes_main_effects. unfold Props.main_effects. do 2 f_equal.
  rewrite !flat_map_concat_map, map_map. f_equal. apply map_ext. intros k.
  unfold shard_effects, summary_of. cbn [fst snd]. do 3 f_equal.
  unfold summary_line. rewrite total_items_count. do 5 f_equal.
  unfold dump, shard. cbn [doc_items]. now rewrite !length_map.
Qed.

End MainProperties.

Section MainPropertiesOnSamples.
Import Py Props MoreProps Splitter.



Lemma splitter_writes_every_kept_record_witness :
  Examples.fs_with (VDict Examples.dataset) (input Examples.split_args)
    = Ok (VDict Examples.dataset) /\
  distinct_keys Examples.dataset /\ 1 <= num_shards Examples.split_args /\
  exists log,
    Splitter.main Posix.join Posix.basename Posix.splitext Examples.split_args
      (Examples.fs_with (VDict Examples.dataset)) = (log, Ok tt) /\
    records_written log = 1%nat.
Proof.
  assert (H1 : Examples.fs_with (VDict Examples.dataset) (input Examples.split_args)
               = Ok (VDict Examples.dataset)) by reflexivity.
  assert (H2 : distinct_keys Examples.dataset)
    by (unfold distinct_keys; simpl; repeat constructor; simpl; intuition discriminate).
  assert (H3 : 1 <= num_shards Examples.split_args) by (simpl; lia).
  split; [exact H1|]. split; [exact H2|]. split; [exact H3|].
  eexists. split; [reflexivity|].
  exact (splitter_writes_every_kept_record Posix.join Posix.basename Posix.splitext
           Examples.split_args (Examples.fs_with (VDict Examples.dataset))
           Examples.dataset _ H1 H2 H3 eq_refl).
Defined.

Lemma main_reports_what_it_writes_witness :
  Examples.fs_with (VDict Examples.dataset) (input Examples.split_args)
    = Ok (VDict Examples.dataset) /\
  distinct_keys Examples.dataset /\ 1 <= num_shards Examples.split_args /\
  exists log,
    Splitter.main Posix.join Posix.basename Posix.splitext Examples.split_args
      (Examples.fs_with (VDict Examples.dataset)) = (log, Ok tt) /\
    log = MakeDirs "in_splits_2"
          :: flat_map (fun w => [WriteJson (fst w) (snd w); Print (summary_of w)])
                      (writes log)
          ++ [Print "Done."].
Proof.
  assert (H1 : Examples.fs_with (VDict Examples.dataset) (input Examples.split_args)
               = Ok (VDict Examples.dataset)) by reflexivity.
  assert (H2 : distinct_keys Examples.dataset)
    by (unfold distinct_keys; simpl; repeat constructor; simpl; intuition discriminate).
  assert (H3 : 1 <= num_shards Examples.split_args) by (simpl; lia).
  split; [exact H1|]. split; [exact H2|]. split; [exact H3|].
  eexists. split; [reflexivity|].
  exact (main_reports_what_it_writes Posix.join Posix.basename Posix.splitext
           Examples.split_args (Examples.fs_with (VDict Examples.dataset))
           Examples.dataset _ H1 H2 H3 eq_refl).
Defined.

End MainPropertiesOnSamples.

(* ================================================================== *)
(** * Shards of a sorted run *)
(* ================================================================== *)

Module SortedFacts.
Import Py Props PyFacts Splitter SplitterFacts.

(** [x <= y] on strings, as [sorted] compares them. *)
Abbreviation str_le := (fun x y : string => String.leb x y = true).

Lemma insert_sorted_strongly_sorted x l :
  StronglySorted str_le l -> StronglySorted str_le (insert_sorted x l).
Proof.
  induction 1 as [|y l Hs IH Hall]; cbn [insert_sorted].
  - repeat constructor.
  - destruct (String.leb x y) eqn:Exy.
    + constructor; [now constructor|]. constructor; [assumption|].
      eapply Forall_impl; [|exact Hall]. intros z Hz. cbv beta in *.
      eapply leb_trans; eauto.
    + constructor; [assumption|].
      apply Forall_forall. intros z Hz.
      apply (Permutation_in _ (Permutation_sym (insert_sorted_perm x l))) in Hz.
      destruct Hz as [<-|Hz].
      * destruct (String.leb_total x y); congruence.
      * rewrite Forall_forall in Hall. now apply Hall.
Qed.

Lemma sorted_strongly_sorted l : StronglySorted str_le (sorted l).
Proof.
  induction l as [|x l IH]; [constructor|].
  cbn [sorted fold_right]. now apply insert_sorted_strongly_sorted.
Qed.

Lemma filter_strongly_sorted {A} (R : A -> A -> Prop) f l :
  StronglySorted R l -> StronglySorted R (filter f l).
Proof.
  induction 1 as [|x l Hs IH Hall]; cbn [filter]; [constructor|].
  destruct (f x); [|assumption]. constructor; [assumption|].
  apply Forall_forall. intros y Hy. apply filter_In in Hy as [Hy _].
  rewrite Forall_forall in Hall. now apply Hall.
Qed.

Lemma in_enumerate {A} (l : list A) : forall start i x,
  In (i, x) (enumerate start l) -> In x l.
Proof.
  induction l as [|y l IH]; intros start i x; cbn [enumerate]; [tauto|].
  intros [[= _ <-]|H]; [now left|right; eauto].
Qed.

Lemma every_nth_from_in {A} start n b (l : list A) x :
  In x (every_nth_from start n b l) -> In x l.
Proof.
  unfold every_nth_from. intros H.
  apply in_map_iff in H as ([i y] & <- & H). apply filter_In in H as [H _].
  eapply in_enumerate; eauto.
Qed.

Lemma every_nth_from_strongly_sorted {A} (R : A -> A -> Prop) n b l :
  StronglySorted R l -> forall start, StronglySorted R (every_nth_from start n b l).
Proof.
  induction 1 as [|x l Hs IH Hall]; intros start.
  - constructor.
  - rewrite every_nth_from_cons. destruct (start mod n =? b); [|apply IH].
    constructor; [apply IH|].
    apply Forall_forall. intros y Hy. apply every_nth_from_in in Hy.
    rewrite Forall_forall in Hall. now apply Hall.
Qed.

End SortedFacts.

Section SortedShards.
Import Py Props MoreProps PyFacts Splitter SplitterFacts SortedFacts.

Variable os_path_join : string -> string -> string.
Variable os_path_basename : string -> string.
Variable os_path_splitext : string -> string * string.

Local Abbreviation main :=
  (Splitter.main os_path_join os_path_basename os_path_splitext).

(** With [sort_ids], every shard file of a normal run lists its
    identifiers in ascending lexicographic order. *)
Theorem sorted_run_writes_ascending_shards a fs (d : dict value) log :
  sort_ids a = true ->
  fs (input a) = Ok (VDict d) -> distinct_keys d -> 1 <= num_shards a ->
  main a fs = (log, Ok tt) ->
  forall p doc, In (p, doc) (writes log) ->
    StronglySorted (fun x y => String.leb x y = true) (keys (doc_items doc)).
Proof.
  intros Hsort Hfs Hnd Hn Hrun p doc Hin.
  rewrite (main_normal_effects _ _ _ _ _ _ _ Hfs Hnd Hn Hrun) in Hin.
  rewrite writes_main_effects in Hin.
  apply in_map_iff in Hin as (k & [= _ <-] & _).
  rewrite keys_shard_doc. unfold every_nth.
  apply every_nth_from_strongly_sorted.
  unfold filtered_ids, survivors. apply filter_strongly_sorted.
  unfold processing_order. rewrite Hsort. apply sorted_strongly_sorted.
Qed.

End SortedShards.

Section SortedShardsOnSamples.
Import Py Props MoreProps Splitter.

Lemma sorted_run_writes_ascending_shards_witness :
  sort_ids Examples.sorted_args = true /\
  Examples.fs_with (VDict Examples.dataset_swapped) (input Examples.sorted_args)
    = Ok (VDict Examples.dataset_swapped) /\
  distinct_keys Examples.dataset_swapped /\ 1 <= num_shards Examples.sorted_args /\
  StronglySorted (fun x y => String.leb x y = true)
    (keys (doc_items (VDict [("10000", VList [VDict [("name", VNone);
                                                     ("question", VStr "Q1");
                                                     ("fact", VStr "fact1")]])]))).
Proof.
  assert (H1 : Examples.fs_with (VDict Examples.dataset_swapped) (input Examples.sorted_args)
               = Ok (VDict Examples.dataset_swapped)) by reflexivity.
  assert (H2 : distinct_keys Examples.dataset_swapped)
    by (unfold distinct_keys; simpl; repeat constructor; simpl; intuition discriminate).
  assert (H3 : 1 <= num_shards Examples.sorted_args) by (simpl; lia).
  split; [reflexivity|]. split; [exact H1|]. split; [exact H2|]. split; [exact H3|].
  apply (sorted_run_writes_ascending_shards Posix.join Posix.basename Posix.splitext
           Examples.sorted_args (Examples.fs_with (VDict Examples.dataset_swapped))
           Examples.dataset_swapped _ eq_refl H1 H2 H3 eq_refl
           "in_splits_2/split_01.json").
  simpl. now left.
Defined.

End SortedShardsOnSamples.
